(** * qmt.geometry.geo_data: the 1D, 2D and 3D geometry registries

    A shallow embedding of [src/qmt/geometry/geo_data.py].  The three
    classes [Geo1DData], [Geo2DData] and [Geo3DData] are records; their
    methods are computations in a small state-and-exception monad whose
    state survives a raised exception, as the attributes of a Python
    object do. *)

From Stdlib Require Import ZArith Floats.SpecFloat Strings.Byte.
From stdpp Require Import gmap strings list fin_maps.

Open Scope string_scope.

(** ** Python exceptions and method results *)

(** The exceptions the module can raise, each with its message.  Every
    [raise] of the module itself is a [ValueError]; the other three come
    from the runtime ([self.serial_fcdoc] on an instance without that
    attribute, [pickle.loads], [open], [of.write]). *)
Inductive exn : Type :=
| ValueError (msg : string)
| AttributeError (msg : string)
| TypeError (msg : string)
| OSError (msg : string)
| UnpicklingError (msg : string).

Inductive outcome (A : Type) : Type :=
| Return (a : A)
| Raise (e : exn).
Arguments Return {A} a.
Arguments Raise {A} e.

(** A method of an object with attributes [S]: it receives the object
    and gives it back together with what the call produced. *)
Definition M (S A : Type) : Type := S -> S * outcome A.

Definition ret {S A} (a : A) : M S A := fun s => (s, Return a).
Definition raise {S A} (e : exn) : M S A := fun s => (s, Raise e).
Definition bind {S A B} (m : M S A) (k : A -> M S B) : M S B :=
  fun s =>
    match m s with
    | (s', Return a) => k a s'
    | (s', Raise e) => (s', Raise e)
    end.
Definition get {S} : M S S := fun s => (s, Return s).
Definition modify {S} (f : S -> S) : M S unit := fun s => (f s, Return tt).

Notation "x <- m ;; k" := (bind m (fun x => k))
  (at level 100, m at next level, right associativity).
Notation "m ;;; k" := (bind m (fun _ => k))
  (at level 100, right associativity).

(** [name in d] for a dict [d]. *)
Definition contains {V} (name : string) (d : gmap string V) : bool :=
  match d !! name with Some _ => true | None => false end.

(** [l.remove(x)]: drops the first item equal to [x]; [None] stands for
    the [ValueError] Python raises when there is none. *)
Fixpoint list_remove (x : string) (l : list string) : option (list string) :=
  match l with
  | [] => None
  | y :: r =>
      if decide (y = x) then Some r
      else match list_remove x r with
           | Some r' => Some (y :: r')
           | None => None
           end
  end.

(** Number of items of [l] equal to [x] ([l.count(x)]). *)
Fixpoint count (x : string) (l : list string) : nat :=
  match l with
  | [] => 0
  | y :: r => (if decide (y = x) then 1 else 0) + count x r
  end.

(** ** Floats

    Endpoints are Python floats: IEEE 754 values, compared with [<] as
    the interpreter does ([SFltb]; any comparison with a NaN is false). *)
Definition float : Type := spec_float.

Definition is_nan (x : float) : bool :=
  match x with S754_nan => true | _ => false end.

(** [sorted([a, b])]: list.sort reverses the two-element run exactly
    when [b < a], and keeps it otherwise. *)
Definition sorted2 (a b : float) : float * float :=
  if SFltb b a then (b, a) else (a, b).

(** The builtins [min(a, b)] and [max(a, b)]: the first argument is kept
    unless the second is strictly smaller (respectively greater). *)
Definition py_min (a b : float) : float := if SFltb b a then b else a.
Definition py_max (a b : float) : float := if SFltb a b then b else a.

(** [x == y] on floats. *)
Definition float_eq (x y : float) : bool := SFeqb x y.

(** [x < y] and [x <= y] on floats. *)
Definition float_lt (x y : float) : bool := SFltb x y.
Definition float_le (x y : float) : bool := SFleb x y.

(** ** The base class *)

(** Modelled from the spec: the class [Data] of [qmt.task_framework],
    which the three classes extend and which is not part of the source
    at hand.  The specification says it supplies a label field and
    generic persistence hooks; the label is all this module reads. *)
Record Data : Type := mkData { label : string }.

(** ** Geo1DData *)
Module Geo1DData.

Record t : Type := mk {
  base : Data;
  parts : gmap string (float * float)
}.

(** [__init__], given what the base class sets up. *)
Definition init (d : Data) : t := {| base := d; parts := ∅ |}.

Definition set_parts (f : gmap string (float * float) -> gmap string (float * float))
    (g : t) : t :=
  {| base := base g; parts := f (parts g) |}.

Definition add_part (part_name : string) (start_point end_point : float)
    (overwrite : bool) : M t unit :=
  let '(start, end_) := sorted2 start_point end_point in
  g <- get ;;
  if contains part_name (parts g) && negb overwrite then
    raise (ValueError ("Attempted to overwrite the part " +:+ part_name +:+ "."))
  else
    modify (set_parts <[part_name := (start, end_)]>).

Definition remove_part (part_name : string) (ignore_if_absent : bool) : M t unit :=
  g <- get ;;
  if contains part_name (parts g) then
    modify (set_parts (delete part_name))
  else if negb ignore_if_absent then
    raise (ValueError ("Attempted to remove the part " +:+ part_name +:+
                       ", which doesn't exist."))
  else
    ret tt.

(** One call of the public interface, the instance left by a sequence
    of calls, and the instances a program can build that way. *)
Inductive call : Type :=
| AddPart (name : string) (start_point end_point : float) (overwrite : bool)
| RemovePart (name : string) (ignore_if_absent : bool).

Definition perform (c : call) : M t unit :=
  match c with
  | AddPart n s e o => add_part n s e o
  | RemovePart n i => remove_part n i
  end.

Fixpoint run (cs : list call) (g : t) : t :=
  match cs with
  | [] => g
  | c :: cs' => run cs' (fst (perform c g))
  end.

Definition reachable (g : t) : Prop :=
  exists d cs, g = run cs (init d).

End Geo1DData.

(** ** Geo2DData *)

(** What the module asks of a shapely polygon: the [is_valid]
    property.  The checker itself belongs to shapely. *)
Class Shape (Polygon : Type) : Type := is_valid : Polygon -> bool.

Module Geo2DData.
Section WithShapes.
Context {Polygon LineString : Type} `{!Shape Polygon}.

Record t : Type := mk {
  base : Data;
  parts : gmap string Polygon;
  edges : gmap string LineString;
  build_order : list string
}.

Definition init (d : Data) : t :=
  {| base := d; parts := ∅; edges := ∅; build_order := [] |}.

Definition set_parts (f : gmap string Polygon -> gmap string Polygon) (g : t) : t :=
  {| base := base g; parts := f (parts g); edges := edges g;
     build_order := build_order g |}.
Definition set_edges (f : gmap string LineString -> gmap string LineString) (g : t) : t :=
  {| base := base g; parts := parts g; edges := f (edges g);
     build_order := build_order g |}.
Definition set_build_order (f : list string -> list string) (g : t) : t :=
  {| base := base g; parts := parts g; edges := edges g;
     build_order := f (build_order g) |}.

(** [self.build_order.remove(name)] *)
Definition build_order_remove (name : string) : M t unit :=
  g <- get ;;
  match list_remove name (build_order g) with
  | Some l => modify (set_build_order (fun _ => l))
  | None => raise (ValueError "list.remove(x): x not in list")
  end.

Definition add_part (part_name : string) (part : Polygon) (overwrite : bool)
    : M t unit :=
  if negb (is_valid part) then
    raise (ValueError ("Part " +:+ part_name +:+ " is not a valid polygon."))
  else
    g <- get ;;
    if contains part_name (parts g) && negb overwrite then
      raise (ValueError ("Attempted to overwrite the part " +:+ part_name +:+ "."))
    else
      modify (set_parts <[part_name := part]>) ;;;
      modify (set_build_order (fun l => (l ++ [part_name])%list)).

Definition remove_part (part_name : string) (ignore_if_absent : bool) : M t unit :=
  g <- get ;;
  if contains part_name (parts g) then
    modify (set_parts (delete part_name)) ;;;
    build_order_remove part_name
  else if negb ignore_if_absent then
    raise (ValueError ("Attempted to remove the part " +:+ part_name +:+
                       ", which doesn't exist."))
  else
    ret tt.

Definition add_edge (edge_name : string) (edge : LineString) (overwrite : bool)
    : M t unit :=
  g <- get ;;
  if contains edge_name (edges g) && negb overwrite then
    raise (ValueError ("Attempted to overwrite the edge " +:+ edge_name +:+ "."))
  else
    modify (set_edges <[edge_name := edge]>) ;;;
    modify (set_build_order (fun l => (l ++ [edge_name])%list)).

Definition remove_edge (edge_name : string) (ignore_if_absent : bool) : M t unit :=
  g <- get ;;
  if contains edge_name (edges g) then
    modify (set_edges (delete edge_name)) ;;;
    build_order_remove edge_name
  else if negb ignore_if_absent then
    raise (ValueError ("Attempted to remove the edge " +:+ edge_name +:+
                       ", which doesn't exist."))
  else
    ret tt.

(** One call of the public interface. *)
Inductive call : Type :=
| AddPart (name : string) (part : Polygon) (overwrite : bool)
| RemovePart (name : string) (ignore_if_absent : bool)
| AddEdge (name : string) (edge : LineString) (overwrite : bool)
| RemoveEdge (name : string) (ignore_if_absent : bool).

Definition perform (c : call) : M t unit :=
  match c with
  | AddPart n p o => add_part n p o
  | RemovePart n i => remove_part n i
  | AddEdge n e o => add_edge n e o
  | RemoveEdge n i => remove_edge n i
  end.

(** The instance left by a sequence of calls; a call that raises is
    caught by the caller and the sequence goes on. *)
Fixpoint run (cs : list call) (g : t) : t :=
  match cs with
  | [] => g
  | c :: cs' => run cs' (fst (perform c g))
  end.

(** The instances a program can build through the interface. *)
Definition reachable (g : t) : Prop :=
  exists d cs, g = run cs (init d).

(** A successful add that found its name already in the registry it
    targets, so that the name was appended a further time. *)
Definition overwrites (k : string) (c : call) (g : t) : bool :=
  match c with
  | AddPart n p o =>
      bool_decide (n = k) && is_valid p && o && contains n (parts g)
  | AddEdge n _ o =>
      bool_decide (n = k) && o && contains n (edges g)
  | _ => false
  end.

(** How many such adds of [k] a sequence of calls makes from [g]. *)
Fixpoint overwrite_count (k : string) (cs : list call) (g : t) : nat :=
  match cs with
  | [] => 0
  | c :: cs' =>
      (if overwrites k c g then 1 else 0)
      + overwrite_count k cs' (fst (perform c g))
  end.

(** 1 when [k] is a key of the dict, else 0. *)
Definition held {V} (k : string) (d : gmap string V) : nat :=
  if contains k d then 1 else 0.

(** The name a call is about. *)
Definition call_name (c : call) : string :=
  match c with
  | AddPart n _ _ | RemovePart n _ | AddEdge n _ _ | RemoveEdge n _ => n
  end.

(** A successful add, of whatever name, that found its name already in
    the registry it targets; and how many of them a sequence of calls
    makes from [g]. *)
Definition overwriting (c : call) (g : t) : bool :=
  overwrites (call_name c) c g.

Fixpoint overwriting_total (cs : list call) (g : t) : nat :=
  match cs with
  | [] => 0
  | c :: cs' =>
      (if overwriting c g then 1 else 0)
      + overwriting_total cs' (fst (perform c g))
  end.

End WithShapes.
Arguments t : clear implicits.
Arguments call : clear implicits.
End Geo2DData.

(** ** Geo3DData *)

(** What [pickle.loads] gives back, as far as [of.write] can tell: a
    bytes-like object (bytes, bytearray, ...) with its content, or an
    object of another type, of which only the name of the type shows,
    in the error message of the binary file that refuses it. *)
Inductive pyobj : Type :=
| PyBytes (data : list byte)
| PyOther (type_name : string).

(** A file system: the contents of each existing file, by path.  A path
    is taken as it is written: nothing is said here about two
    spellings of one file. *)
Abbreviation files := (gmap string (list byte)).

(** The interpreter and the operating system under [write_fcstd]:
    [pickle.loads] (it returns an object or raises), and whether
    [open(path, 'wb')] is refused. *)
Class Runtime : Type := {
  pickle_loads : list byte -> exn + pyobj;
  open_refused : files -> string -> option exn
}.

Module Geo3DData.
Section WithParts.
Context {Part3D : Type} `{!Runtime}.

(** [serial_fcdoc] is not set by [__init__]: [None] is an instance
    that does not have the attribute. *)
Record t : Type := mk {
  base : Data;
  build_order : list string;
  parts : gmap string Part3D;
  serial_fcdoc : option (list byte)
}.

Definition init (d : Data) : t :=
  {| base := d; build_order := []; parts := ∅; serial_fcdoc := None |}.

Definition set_parts (f : gmap string Part3D -> gmap string Part3D) (g : t) : t :=
  {| base := base g; build_order := build_order g; parts := f (parts g);
     serial_fcdoc := serial_fcdoc g |}.

Definition add_part (part_name : string) (part : Part3D) (overwrite : bool)
    : M t unit :=
  g <- get ;;
  if contains part_name (parts g) && negb overwrite then
    raise (ValueError ("Attempted to overwrite the part " +:+ part_name +:+ "."))
  else
    modify (set_parts <[part_name := part]>).

Definition remove_part (part_name : string) (ignore_if_absent : bool) : M t unit :=
  g <- get ;;
  if contains part_name (parts g) then
    modify (set_parts (delete part_name))
  else if negb ignore_if_absent then
    raise (ValueError ("Attempted to remove the part " +:+ part_name +:+
                       ", which doesn't exist."))
  else
    ret tt.

(** One call of the registry interface, the instance left by a
    sequence of calls, and the instances a program can build that way. *)
Inductive call : Type :=
| AddPart (name : string) (part : Part3D) (overwrite : bool)
| RemovePart (name : string) (ignore_if_absent : bool).

Definition perform (c : call) : M t unit :=
  match c with
  | AddPart n p o => add_part n p o
  | RemovePart n i => remove_part n i
  end.

Fixpoint run (cs : list call) (g : t) : t :=
  match cs with
  | [] => g
  | c :: cs' => run cs' (fst (perform c g))
  end.

Definition reachable (g : t) : Prop :=
  exists d cs, g = run cs (init d).

(** [open(file_path, 'wb')]: creates the file or empties it. *)
Definition open_wb (file_path : string) : M files unit :=
  fs <- get ;;
  match open_refused fs file_path with
  | Some e => raise e
  | None => modify <[file_path := []]>
  end.

(** [of.write(data)] on the file just opened, closed by the [with]. *)
Definition file_write (file_path : string) (data : pyobj) : M files unit :=
  match data with
  | PyBytes bs =>
      modify (fun fs : files => <[file_path := (default [] (fs !! file_path) ++ bs)%list]> fs)
  | PyOther type_name =>
      raise (TypeError ("a bytes-like object is required, not '" +:+ type_name
                        +:+ "'"))
  end.

(** The method reads the instance and acts on the file system. *)
Definition write_fcstd (file_path : option string) (g : t) : M files string :=
  let file_path :=
    match file_path with
    | None => label (base g) +:+ ".fcstd"
    | Some p => p
    end in
  match serial_fcdoc g with
  | None =>
      raise (AttributeError "'Geo3DData' object has no attribute 'serial_fcdoc'")
  | Some blob =>
      match pickle_loads blob with
      | inl e => raise e
      | inr data =>
          open_wb file_path ;;;
          file_write file_path data ;;;
          ret file_path
      end
  end.

End WithParts.
Arguments t : clear implicits.
Arguments call : clear implicits.
End Geo3DData.

(** ** The spec's names for the module's errors

    The code raises a [ValueError] at each of its three checks; the
    specification tells them apart by what was violated. *)
Definition DuplicateNameError (kind name : string) : exn :=
  ValueError ("Attempted to overwrite the " +:+ kind +:+ " " +:+ name +:+ ".").
Definition NotFoundError (kind name : string) : exn :=
  ValueError ("Attempted to remove the " +:+ kind +:+ " " +:+ name +:+
              ", which doesn't exist.").
Definition InvalidGeometryError (name : string) : exn :=
  ValueError ("Part " +:+ name +:+ " is not a valid polygon.").

(** [t1 == t2] on two pairs of floats, component by component. *)
Definition pair_eq (p q : float * float) : bool :=
  float_eq (fst p) (fst q) && float_eq (snd p) (snd q).

(** The property of a 2D instance that the specification words as: the
    names of [build_order] are the keys of the two registries, each name
    belonging to one registry only. *)
Definition names_partitioned {Polygon LineString}
    (g : Geo2DData.t Polygon LineString) : Prop :=
  (forall n, n ∈ Geo2DData.build_order g ->
     contains n (Geo2DData.parts g) = true \/ contains n (Geo2DData.edges g) = true)
  /\ (forall n, contains n (Geo2DData.parts g) = true \/
                contains n (Geo2DData.edges g) = true ->
        n ∈ Geo2DData.build_order g)
  /\ (forall n, ~ (contains n (Geo2DData.parts g) = true /\
                   contains n (Geo2DData.edges g) = true)).

(** ** Sample values

    Concrete shapes, floats and a runtime on which the statements below
    are exercised. *)

(** A polygon given by its vertices on the integer grid, taken as valid
    when it has three vertices or more and no two of its sides cross. *)
Definition point : Type := Z * Z.
Definition ring : Type := list point.

Definition orient (p q r : point) : Z :=
  ((fst q - fst p) * (snd r - snd p) - (snd q - snd p) * (fst r - fst p))%Z.

Definition sides_cross (s1 s2 : point * point) : bool :=
  let '(a, b) := s1 in
  let '(c, d) := s2 in
  (orient a b c * orient a b d <? 0)%Z && (orient c d a * orient c d b <? 0)%Z.

Definition sides (r : ring) : list (point * point) :=
  match r with
  | [] => []
  | p :: r' => zip r (r' ++ [p])%list
  end.

Definition ring_valid (r : ring) : bool :=
  (3 <=? length r)%nat &&
  forallb (fun s1 => forallb (fun s2 => negb (sides_cross s1 s2)) (sides r)) (sides r).

#[export] Instance ring_shape : Shape ring := ring_valid.

Definition square : ring := [(0, 0); (2, 0); (2, 2); (0, 2)]%Z.
Definition triangle : ring := [(0, 0); (4, 0); (0, 3)]%Z.
(** Self-intersecting: the sides (0,0)-(2,2) and (2,0)-(0,2) cross. *)
Definition bowtie : ring := [(0, 0); (2, 2); (2, 0); (0, 2)]%Z.

Definition segment : Type := point * point.
Definition bottom : segment := ((0, 0), (2, 0))%Z.
Definition top : segment := ((0, 2), (2, 2))%Z.
(** A line is taken as valid when its two ends differ. *)
#[export] Instance segment_shape : Shape segment :=
  fun s => negb (bool_decide (fst s = snd s)).
Definition dot : segment := ((1, 1), (1, 1))%Z.

(** The floats 2.0 and 5.0 in binary64, and a NaN. *)
Definition two : float := S754_finite false 4503599627370496 (-51).
Definition five : float := S754_finite false 5629499534213120 (-50).
Definition nan : float := S754_nan.

(** The two zeros, 0.0 and -0.0. *)
Definition plus_zero : float := S754_zero false.
Definition minus_zero : float := S754_zero true.

(** A runtime that unpickles what protocol 3 writes for a short bytes
    object (PROTO 3, SHORT_BINBYTES, the bytes, BINPUT 0, STOP), takes a
    short string for a non-bytes object, and whose [open] refuses the
    empty path only. *)
Definition sample_loads (blob : list byte) : exn + pyobj :=
  match blob with
  | x80 :: x03 :: x43 :: n :: rest =>
      match drop (Byte.to_nat n) rest with
      | [x71; x00; x2e] => inr (PyBytes (take (Byte.to_nat n) rest))
      | _ => inl (UnpicklingError "pickle data was truncated")
      end
  | x80 :: x03 :: x58 :: _ => inr (PyOther "str")
  | _ => inl (UnpicklingError "invalid load key")
  end.

#[export] Instance sample_runtime : Runtime := {|
  pickle_loads := sample_loads;
  open_refused := fun _ path =>
    if decide (path = "") then Some (OSError "No such file or directory: ''")
    else None
|}.

(** [pickle.dumps(b"hi", protocol=3)] *)
Definition pickled_hi : list byte := [x80; x03; x43; x02; x68; x69; x71; x00; x2e].

(** A 1D instance with one part, a 2D instance with a part and an edge,
    and a 3D instance with a part and a blob attached. *)
Definition wire : Geo1DData.t :=
  fst (Geo1DData.add_part "a" five two false (Geo1DData.init (mkData "wire"))).

Definition drawing_calls : list (Geo2DData.call ring segment) :=
  [Geo2DData.AddPart "a" square false; Geo2DData.AddEdge "e" bottom false].
Definition drawing : Geo2DData.t ring segment :=
  Geo2DData.run drawing_calls (Geo2DData.init (mkData "drawing")).

(** [drawing] after its part and its edge have both been overwritten:
    [build_order] is [a, e, a, e]. *)
Definition redrawn_calls : list (Geo2DData.call ring segment) :=
  [Geo2DData.AddPart "a" square false; Geo2DData.AddEdge "e" bottom false;
   Geo2DData.AddPart "a" triangle true; Geo2DData.AddEdge "e" top true].
Definition redrawn : Geo2DData.t ring segment :=
  Geo2DData.run redrawn_calls (Geo2DData.init (mkData "drawing")).

Definition solid : Geo3DData.t string :=
  Geo3DData.mk (mkData "solid") [] {["p1" := "box"]} (Some pickled_hi).

(** Calls in which one name is given to a part and to an edge, and
    calls in which a part is overwritten and then removed. *)
Definition shared_name_calls : list (Geo2DData.call ring segment) :=
  [Geo2DData.AddPart "a" square false; Geo2DData.AddEdge "a" bottom false].
Definition overwrite_then_remove_calls : list (Geo2DData.call ring segment) :=
  [Geo2DData.AddPart "a" square false; Geo2DData.AddPart "a" triangle true;
   Geo2DData.RemovePart "a" false].

(** The calls that build [wire]; a 3D instance built through the
    interface; [pickle.dumps('hi', protocol=3)], which is not a bytes
    object once unpickled; and a file system with one file in it. *)
Definition wire_calls : list Geo1DData.call :=
  [Geo1DData.AddPart "a" five two false].

Definition assembly_calls : list (Geo3DData.call string) :=
  [Geo3DData.AddPart "p1" "box" false; Geo3DData.AddPart "p2" "rod" false;
   Geo3DData.RemovePart "p1" false].
Definition assembly : Geo3DData.t string :=
  Geo3DData.run assembly_calls (Geo3DData.init (mkData "assembly")).

Definition pickled_str : list byte :=
  [x80; x03; x58; x02; x00; x00; x00; x68; x69; x71; x00; x2e].

Definition disk : files := {["solid.fcstd" := [x01; x02; x03]; "notes.txt" := [x41]]}.

(** * Properties *)

(** ** Dicts and lists *)

Lemma contains_true {V} (k : string) (d : gmap string V) :
  contains k d = true <-> is_Some (d !! k).
Proof.
  unfold contains. destruct (d !! k) as [v|]; split; intros H; eauto.
  - discriminate.
  - destruct H as [? H]. discriminate.
Qed.

Lemma contains_false {V} (k : string) (d : gmap string V) :
  contains k d = false <-> d !! k = None.
Proof.
  unfold contains. destruct (d !! k); split; intros H; congruence.
Qed.

Lemma contains_insert {V} (k n : string) (v : V) (d : gmap string V) :
  contains k (<[n := v]> d) = if decide (n = k) then true else contains k d.
Proof.
  unfold contains. rewrite lookup_insert. by destruct (decide (n = k)).
Qed.

Lemma contains_delete {V} (k n : string) (d : gmap string V) :
  contains k (delete n d) = if decide (n = k) then false else contains k d.
Proof.
  unfold contains. rewrite lookup_delete. by destruct (decide (n = k)).
Qed.

Lemma count_app (x : string) (l1 l2 : list string) :
  count x (l1 ++ l2)%list = count x l1 + count x l2.
Proof.
  induction l1 as [|y l1 IH]; simpl; [done|]. rewrite IH. lia.
Qed.

Lemma count_zero (x : string) (l : list string) :
  count x l = 0 <-> x ∉ l.
Proof.
  induction l as [|y l IH]; simpl.
  - split; [intros _; apply not_elem_of_nil | done].
  - rewrite not_elem_of_cons. destruct (decide (y = x)) as [->|Hne].
    + split; [discriminate | intros [? _]; done].
    + simpl. rewrite IH. split; [intros ?; split; [congruence | done] | by intros [_ ?]].
Qed.

Lemma count_pos (x : string) (l : list string) :
  0 < count x l <-> x ∈ l.
Proof.
  destruct (decide (x ∈ l)) as [Hin|Hout].
  - split; [done|]. intros _. destruct (count x l) eqn:E; [|lia].
    apply count_zero in E. done.
  - split; [|done]. apply count_zero in Hout. lia.
Qed.

(** [l.remove(x)] succeeds exactly when [x] occurs, and then cuts out
    the first occurrence. *)
Lemma list_remove_first (x : string) (l : list string) :
  x ∈ l ->
  exists l1 l2, l = (l1 ++ x :: l2)%list /\ (x ∉ l1) /\
                list_remove x l = Some (l1 ++ l2)%list.
Proof.
  induction l as [|y l IH]; intros Hin.
  - by apply elem_of_nil in Hin.
  - simpl. destruct (decide (y = x)) as [->|Hne].
    + exists [], l. split; [done|]. split; [apply not_elem_of_nil | done].
    + apply elem_of_cons in Hin as [Heq|Hin]; [congruence|].
      destruct (IH Hin) as (l1 & l2 & -> & Hout & ->).
      exists (y :: l1), l2. split; [done|]. split; [|done].
      apply not_elem_of_cons. split; [congruence | done].
Qed.

Lemma list_remove_none (x : string) (l : list string) :
  x ∉ l -> list_remove x l = None.
Proof.
  induction l as [|y l IH]; intros Hout; simpl; [done|].
  apply not_elem_of_cons in Hout as [Hne Hout].
  destruct (decide (y = x)); [congruence|]. by rewrite IH.
Qed.

Lemma count_list_remove (k x : string) (l l' : list string) :
  list_remove x l = Some l' ->
  count k l = (if decide (x = k) then 1 else 0) + count k l'.
Proof.
  revert l'. induction l as [|y l IH]; intros l' H; simpl in *; [done|].
  destruct (decide (y = x)) as [->|Hne].
  - by injection H as <-.
  - destruct (list_remove x l) as [r|]; [|done]. injection H as <-.
    simpl. rewrite (IH r eq_refl). lia.
Qed.

(** ** Geo2DData: what each method does, on any instance *)

Section Geo2DFacts.
Import Geo2DData.
Context {Polygon LineString : Type} `{!Shape Polygon}.
Implicit Types (g : t Polygon LineString) (n k : string).

Lemma add_part_unfold g n (p : Polygon) (ow : bool) :
  add_part n p ow g =
    if negb (is_valid p) then (g, Raise (InvalidGeometryError n))
    else if contains n (parts g) && negb ow
         then (g, Raise (DuplicateNameError "part" n))
         else (mk (base g) (<[n := p]> (parts g)) (edges g)
                  (build_order g ++ [n])%list, Return tt).
Proof.
  unfold add_part. destruct (negb (is_valid p)); [done|].
  unfold bind, get. by destruct (contains n (parts g) && negb ow).
Qed.

Lemma add_edge_unfold g n (e : LineString) (ow : bool) :
  add_edge n e ow g =
    if contains n (edges g) && negb ow
    then (g, Raise (DuplicateNameError "edge" n))
    else (mk (base g) (parts g) (<[n := e]> (edges g))
             (build_order g ++ [n])%list, Return tt).
Proof.
  unfold add_edge, bind, get. by destruct (contains n (edges g) && negb ow).
Qed.

Lemma remove_part_unfold g n (ign : bool) :
  remove_part n ign g =
    if contains n (parts g) then
      match list_remove n (build_order g) with
      | Some l => (mk (base g) (delete n (parts g)) (edges g) l, Return tt)
      | None => (mk (base g) (delete n (parts g)) (edges g) (build_order g),
                 Raise (ValueError "list.remove(x): x not in list"))
      end
    else if negb ign then (g, Raise (NotFoundError "part" n))
    else (g, Return tt).
Proof.
  unfold remove_part, bind, get. destruct (contains n (parts g)).
  - unfold modify, build_order_remove, bind, get; simpl.
    by destruct (list_remove n (build_order g)).
  - by destruct ign.
Qed.

Lemma remove_edge_unfold g n (ign : bool) :
  remove_edge n ign g =
    if contains n (edges g) then
      match list_remove n (build_order g) with
      | Some l => (mk (base g) (parts g) (delete n (edges g)) l, Return tt)
      | None => (mk (base g) (parts g) (delete n (edges g)) (build_order g),
                 Raise (ValueError "list.remove(x): x not in list"))
      end
    else if negb ign then (g, Raise (NotFoundError "edge" n))
    else (g, Return tt).
Proof.
  unfold remove_edge, bind, get. destruct (contains n (edges g)).
  - unfold modify, build_order_remove, bind, get; simpl.
    by destruct (list_remove n (build_order g)).
  - by destruct ign.
Qed.

(** An instance put together by hand, with a part that [build_order]
    does not list: the part is deleted and then [list.remove] raises.
    No instance built through the interface is like that (see
    [reachable_part_listed] below). *)
Lemma remove_part_unlisted g n (ign : bool) :
  contains n (parts g) = true -> n ∉ build_order g ->
  remove_part n ign g
  = (mk (base g) (delete n (parts g)) (edges g) (build_order g),
     Raise (ValueError "list.remove(x): x not in list")).
Proof.
  intros Hc Hout. by rewrite remove_part_unfold, Hc, list_remove_none.
Qed.

End Geo2DFacts.

(** ** Geo2DData: how [build_order] follows the two registries *)

Section Geo2DOrder.
Import Geo2DData.
Context {Polygon LineString : Type} `{!Shape Polygon}.
Implicit Types (g : t Polygon LineString) (n k : string)
               (c : call Polygon LineString).

Lemma held_insert {V} k n (v : V) (d : gmap string V) :
  held k (<[n := v]> d) = if decide (n = k) then 1 else held k d.
Proof. unfold held. rewrite contains_insert. by destruct (decide (n = k)). Qed.

Lemma held_delete {V} k n (d : gmap string V) :
  held k (delete n d) = if decide (n = k) then 0 else held k d.
Proof. unfold held. rewrite contains_delete. by destruct (decide (n = k)). Qed.

Lemma count_snoc k n (l : list string) :
  count k (l ++ [n])%list = count k l + (if decide (n = k) then 1 else 0).
Proof. rewrite count_app. simpl. lia. Qed.

(** Is the name of the call the name [k] we count? *)
Local Ltac same_name n k :=
  destruct (decide (n = k)) as [->|?];
  [ rewrite ?(bool_decide_eq_true_2 (k = k)) by done
  | rewrite ?(bool_decide_eq_false_2 (n = k)) by done ].

(** One call keeps the account: the occurrences of a name are the
    registries holding it, plus what was in excess before, plus one
    when the call is an overwriting add of that name. *)
Lemma perform_count c g (d : string -> nat) :
  (forall k, count k (build_order g)
             = held k (parts g) + held k (edges g) + d k) ->
  forall k,
    count k (build_order (fst (perform c g)))
    = held k (parts (fst (perform c g))) + held k (edges (fst (perform c g)))
      + d k + (if overwrites k c g then 1 else 0).
Proof.
  intros Hacc k. pose proof (Hacc k) as Hk.
  destruct c as [n p o|n i|n e o|n i]; simpl perform; simpl overwrites.
  - rewrite add_part_unfold.
    destruct (is_valid p) eqn:Hv; simpl;
      [|rewrite ?andb_false_r; simpl; lia].
    destruct (contains n (parts g)) eqn:Hc, o; simpl;
      rewrite ?andb_false_r, ?andb_true_r; simpl;
      rewrite ?count_snoc, ?held_insert; try lia;
      same_name n k; simpl; try lia;
      unfold held in *; rewrite ?Hc in Hk; rewrite ?Hc; lia.
  - rewrite remove_part_unfold.
    destruct (contains n (parts g)) eqn:Hc; [|destruct i; simpl; lia].
    assert (Hin : n ∈ build_order g).
    { apply count_pos. rewrite (Hacc n). unfold held. rewrite Hc. lia. }
    destruct (list_remove_first _ _ Hin) as (l1 & l2 & _ & _ & Hrm).
    rewrite Hrm. simpl. rewrite held_delete.
    rewrite (count_list_remove k _ _ _ Hrm) in Hk. revert Hk.
    destruct (decide (n = k)) as [->|]; [|lia].
    unfold held. rewrite Hc. lia.
  - rewrite add_edge_unfold.
    destruct (contains n (edges g)) eqn:Hc, o; simpl;
      rewrite ?andb_false_r, ?andb_true_r; simpl;
      rewrite ?count_snoc, ?held_insert; try lia;
      same_name n k; simpl; try lia;
      unfold held in *; rewrite ?Hc in Hk; rewrite ?Hc; lia.
  - rewrite remove_edge_unfold.
    destruct (contains n (edges g)) eqn:Hc; [|destruct i; simpl; lia].
    assert (Hin : n ∈ build_order g).
    { apply count_pos. rewrite (Hacc n). unfold held. rewrite Hc. lia. }
    destruct (list_remove_first _ _ Hin) as (l1 & l2 & _ & _ & Hrm).
    rewrite Hrm. simpl. rewrite held_delete.
    rewrite (count_list_remove k _ _ _ Hrm) in Hk. revert Hk.
    destruct (decide (n = k)) as [->|]; [|lia].
    unfold held. rewrite Hc. lia.
Qed.

Lemma run_count cs g (d : string -> nat) :
  (forall k, count k (build_order g)
             = held k (parts g) + held k (edges g) + d k) ->
  forall k,
    count k (build_order (run cs g))
    = held k (parts (run cs g)) + held k (edges (run cs g))
      + d k + overwrite_count k cs g.
Proof.
  revert g d. induction cs as [|c cs IH]; intros g d Hacc k; simpl.
  - rewrite Hacc. lia.
  - rewrite (IH _ (fun k => d k + (if overwrites k c g then 1 else 0))).
    + lia.
    + intros k'. rewrite (perform_count c g d Hacc k'). lia.
Qed.

Lemma init_count (d : Data) k :
  count k (build_order (init (Polygon:=Polygon) (LineString:=LineString) d))
  = held k (parts (init (Polygon:=Polygon) (LineString:=LineString) d))
    + held k (edges (init (Polygon:=Polygon) (LineString:=LineString) d)) + 0.
Proof. reflexivity. Qed.

(** On an instance built through the interface, a key of either
    registry is in [build_order]. *)
Lemma reachable_held g k :
  reachable g -> held k (parts g) + held k (edges g) <= count k (build_order g).
Proof.
  intros (d & cs & ->).
  rewrite (run_count cs (init d) (fun _ => 0) (init_count d) k). lia.
Qed.

Lemma reachable_part_listed g n :
  reachable g -> contains n (parts g) = true -> n ∈ build_order g.
Proof.
  intros Hr Hc. apply count_pos. pose proof (reachable_held g n Hr) as H.
  unfold held in H. rewrite Hc in H. lia.
Qed.

Lemma reachable_edge_listed g n :
  reachable g -> contains n (edges g) = true -> n ∈ build_order g.
Proof.
  intros Hr Hc. apply count_pos. pose proof (reachable_held g n Hr) as H.
  unfold held in H. rewrite Hc in H. lia.
Qed.

End Geo2DOrder.

(** ** Geo2DData: the claims *)

Section Geo2DClaims.
Import Geo2DData.
Context {Polygon LineString : Type} `{!Shape Polygon}.
Implicit Types (g : t Polygon LineString) (n k : string).

(** C1, as amended.  After any sequence of [add_part], [add_edge],
    [remove_part] and [remove_edge] calls on a fresh instance, a name
    occurs in [build_order] once for each registry that holds it
    (twice when it names both a part and an edge) plus once for each
    add so far that overwrote an entry of that name.  So every key
    of [parts] or [edges] is in [build_order]; and a name that no add
    has overwritten is in [build_order] exactly when it is a key of
    [parts] or of [edges]. *)
Theorem build_order_counts_registries
    (d : Data) (cs : list (call Polygon LineString)) k :
  count k (build_order (run cs (init d)))
  = held k (parts (run cs (init d))) + held k (edges (run cs (init d)))
    + overwrite_count k cs (init d)
  /\ (contains k (parts (run cs (init d))) = true \/
      contains k (edges (run cs (init d))) = true ->
      k ∈ build_order (run cs (init d)))
  /\ (overwrite_count k cs (init d) = 0 ->
      (k ∈ build_order (run cs (init d)) <->
       contains k (parts (run cs (init d))) = true \/
       contains k (edges (run cs (init d))) = true)).
Proof.
  pose proof (run_count cs (init d) (fun _ => 0) (init_count d) k) as Hk.
  simpl in Hk. rewrite Nat.add_0_r in Hk.
  generalize dependent (run cs (init d)). intros g Hk.
  split; [done|]. split.
  - intros Hc. apply count_pos. rewrite Hk. unfold held.
    destruct Hc as [-> | ->]; lia.
  - intros Hz. rewrite <- count_pos, Hk, Hz. unfold held.
    destruct (contains k (parts g)), (contains k (edges g));
      split; intros H; try lia; auto; destruct H; discriminate.
Qed.


(** C4.  [add_part] with a polygon that is not valid raises
    InvalidGeometryError and leaves the instance as it was, whatever
    the name and the flag.  [add_edge] asks nothing of the line: under
    a name that is new, or with [overwrite=True], every line is
    stored. *)
Theorem invalid_polygon_rejected_edges_unchecked g n (ow : bool) :
  (forall p : Polygon,
      is_valid p = false ->
      add_part n p ow g = (g, Raise (InvalidGeometryError n)))
  /\ (forall e : LineString,
      contains n (edges g) && negb ow = false ->
      add_edge n e ow g
      = (mk (base g) (parts g) (<[n := e]> (edges g))
            (build_order g ++ [n])%list, Return tt)).
Proof.
  split.
  - intros p Hv. by rewrite add_part_unfold, Hv.
  - intros e Hc. by rewrite add_edge_unfold, Hc.
Qed.

(** C8.  On any instance whose [parts] holds [n] and whose
    [build_order] lists it, [remove_part] succeeds, deletes [n] from
    [parts] and cuts the first occurrence of [n] out of [build_order]:
    what comes before it (where [n] does not occur) and what comes
    after it (later occurrences of [n] included) stay in place.
    [remove_edge] does the same on [edges].  In an instance built
    through the interface every name that a registry holds is listed. *)
Theorem remove_drops_first_occurrence g n (ign : bool) :
  (contains n (parts g) = true -> n ∈ build_order g ->
   exists l1 l2,
     build_order g = (l1 ++ n :: l2)%list /\ (n ∉ l1) /\
     remove_part n ign g
     = (mk (base g) (delete n (parts g)) (edges g) (l1 ++ l2)%list, Return tt))
  /\ (contains n (edges g) = true -> n ∈ build_order g ->
   exists l1 l2,
     build_order g = (l1 ++ n :: l2)%list /\ (n ∉ l1) /\
     remove_edge n ign g
     = (mk (base g) (parts g) (delete n (edges g)) (l1 ++ l2)%list, Return tt))
  /\ (reachable g ->
      contains n (parts g) = true \/ contains n (edges g) = true ->
      n ∈ build_order g).
Proof.
  split; [|split].
  - intros Hc Hin.
    destruct (list_remove_first _ _ Hin) as (l1 & l2 & Hbo & Hout & Hrm).
    exists l1, l2. by rewrite remove_part_unfold, Hc, Hrm.
  - intros Hc Hin.
    destruct (list_remove_first _ _ Hin) as (l1 & l2 & Hbo & Hout & Hrm).
    exists l1, l2. by rewrite remove_edge_unfold, Hc, Hrm.
  - intros Hr [Hc|Hc].
    + by apply reachable_part_listed.
    + by apply reachable_edge_listed.
Qed.

(** C10.  [add_part] looks at the polygon first: with a polygon that
    is not valid, a name already in [parts] and [overwrite=False], it
    raises InvalidGeometryError, which is not the DuplicateNameError
    of that name, and the instance is left as it was. *)
Theorem validity_checked_before_duplicate g n (p : Polygon) :
  is_valid p = false ->
  contains n (parts g) = true ->
  add_part n p false g = (g, Raise (InvalidGeometryError n))
  /\ InvalidGeometryError n <> DuplicateNameError "part" n.
Proof.
  intros Hv Hc. split.
  - by rewrite add_part_unfold, Hv.
  - discriminate.
Qed.

End Geo2DClaims.

(** ** Floats: the order behind [sorted], [min] and [max] *)

Lemma SFcompare_flip (x y : float) :
  SFcompare y x = CompOpp <$> SFcompare x y.
Proof.
  destruct x as [[]|[]| |[] m1 e1], y as [[]|[]| |[] m2 e2]; simpl; try done;
    pose proof (Pos.compare_cont_antisym m1 m2 Eq) as Hm; simpl in Hm;
    rewrite (Z.compare_antisym e1 e2); destruct (e1 ?= e2)%Z; simpl; try done;
    rewrite <- Hm; by rewrite ?CompOpp_involutive.
Qed.

Lemma SFcompare_defined (x y : float) :
  is_nan x = false -> is_nan y = false -> exists c, SFcompare x y = Some c.
Proof.
  destruct x as [| | |], y as [| | |]; simpl; intros Hx Hy; try discriminate; eauto.
Qed.

Lemma float_eq_refl (x : float) : is_nan x = false -> float_eq x x = true.
Proof.
  unfold float_eq, SFeqb.
  destruct x as [[]|[]| |[] m e]; simpl; try done; intros _;
    rewrite Z.compare_refl, Pos.compare_cont_refl; done.
Qed.

(** Two floats that compare equal are the same float, the two zeros
    apart. *)
Lemma float_eq_same (x y : float) :
  float_eq x y = true -> x = y \/ exists sx sy, x = S754_zero sx /\ y = S754_zero sy.
Proof.
  unfold float_eq, SFeqb.
  destruct x as [sx|[]| |[] m1 e1], y as [sy|[]| |[] m2 e2]; simpl;
    try discriminate; try (by left); try (by right; eauto).
  - destruct (e1 ?= e2)%Z eqn:He; try discriminate.
    destruct (Pos.compare_cont Eq m1 m2) eqn:Hm; try discriminate. intros _.
    apply Z.compare_eq in He. apply Pos.compare_eq in Hm. left. congruence.
  - destruct (e1 ?= e2)%Z eqn:He; try discriminate.
    destruct (Pos.compare_cont Eq m1 m2) eqn:Hm; try discriminate. intros _.
    apply Z.compare_eq in He. apply Pos.compare_eq in Hm. left. congruence.
Qed.

(** On two floats that are not NaN, sorting the pair gives its minimum
    and its maximum, up to [==]. *)
Lemma sorted2_min_max (s e : float) :
  is_nan s = false -> is_nan e = false ->
  pair_eq (sorted2 s e) (py_min s e, py_max s e) = true
  /\ (float_eq s e = false \/ s = e -> sorted2 s e = (py_min s e, py_max s e)).
Proof.
  intros Hs He.
  pose proof (float_eq_refl s Hs) as Rs. pose proof (float_eq_refl e He) as Re.
  destruct (SFcompare_defined s e Hs He) as [c Hc].
  pose proof (SFcompare_flip s e) as Hf. rewrite Hc in Hf. simpl in Hf.
  unfold sorted2, py_min, py_max, pair_eq, SFltb. rewrite Hc, Hf.
  destruct c; simpl.
  - split.
    + rewrite Rs. simpl. unfold float_eq, SFeqb. by rewrite Hf.
    + intros [H | ->]; [|done]. unfold float_eq, SFeqb in H. by rewrite Hc in H.
  - by rewrite Rs, Re.
  - by rewrite Rs, Re.
Qed.

(** Two floats that compare equal are left in the order given. *)
Lemma sorted2_equal_keeps_order (s e : float) :
  float_eq s e = true -> sorted2 s e = (s, e).
Proof.
  unfold float_eq, SFeqb, sorted2, SFltb. rewrite (SFcompare_flip s e).
  destruct (SFcompare s e) as [[]|]; simpl; done.
Qed.

(** ** Geo1DData and Geo3DData: what each method does, on any instance *)

Lemma add_part_1d_unfold (g : Geo1DData.t) (n : string) (s e : float) (ow : bool) :
  Geo1DData.add_part n s e ow g =
    if contains n (Geo1DData.parts g) && negb ow
    then (g, Raise (DuplicateNameError "part" n))
    else (Geo1DData.mk (Geo1DData.base g)
            (<[n := sorted2 s e]> (Geo1DData.parts g)), Return tt).
Proof.
  unfold Geo1DData.add_part. destruct (sorted2 s e) as [lo hi].
  unfold bind, get. by destruct (contains n (Geo1DData.parts g) && negb ow).
Qed.

Lemma remove_part_1d_unfold (g : Geo1DData.t) (n : string) (ign : bool) :
  Geo1DData.remove_part n ign g =
    if contains n (Geo1DData.parts g)
    then (Geo1DData.mk (Geo1DData.base g) (delete n (Geo1DData.parts g)), Return tt)
    else if negb ign then (g, Raise (NotFoundError "part" n))
    else (g, Return tt).
Proof.
  unfold Geo1DData.remove_part, bind, get.
  destruct (contains n (Geo1DData.parts g)); [done|]. by destruct ign.
Qed.

Section Geo3DFacts.
Import Geo3DData.
Context {Part3D : Type} `{!Runtime}.
Implicit Types (g : t Part3D) (n : string).

Lemma add_part_3d_unfold g n (p : Part3D) (ow : bool) :
  add_part n p ow g =
    if contains n (parts g) && negb ow
    then (g, Raise (DuplicateNameError "part" n))
    else (mk (base g) (build_order g) (<[n := p]> (parts g)) (serial_fcdoc g),
          Return tt).
Proof.
  unfold add_part, bind, get. by destruct (contains n (parts g) && negb ow).
Qed.

Lemma remove_part_3d_unfold g n (ign : bool) :
  remove_part n ign g =
    if contains n (parts g)
    then (mk (base g) (build_order g) (delete n (parts g)) (serial_fcdoc g),
          Return tt)
    else if negb ign then (g, Raise (NotFoundError "part" n))
    else (g, Return tt).
Proof.
  unfold remove_part, bind, get.
  destruct (contains n (parts g)); [done|]. by destruct ign.
Qed.

End Geo3DFacts.

(** ** Claims on the three classes *)

(** C3, as amended.  Adding under a name that the targeted registry
    already holds, with [overwrite=False], raises DuplicateNameError and
    leaves the instance as it was, for [Geo1DData.add_part],
    [Geo2DData.add_edge], [Geo3DData.add_part], and for
    [Geo2DData.add_part] when the polygon is valid; with a polygon that
    is not valid [Geo2DData.add_part] raises InvalidGeometryError
    instead, the instance again left as it was. *)
Theorem duplicate_add_raises_and_keeps_state
    {Polygon LineString Part3D : Type} `{!Shape Polygon} (n : string) :
  (forall (g : Geo1DData.t) (s e : float),
      contains n (Geo1DData.parts g) = true ->
      Geo1DData.add_part n s e false g = (g, Raise (DuplicateNameError "part" n)))
  /\ (forall (g : Geo2DData.t Polygon LineString) (p : Polygon),
      contains n (Geo2DData.parts g) = true -> is_valid p = true ->
      Geo2DData.add_part n p false g = (g, Raise (DuplicateNameError "part" n)))
  /\ (forall (g : Geo2DData.t Polygon LineString) (p : Polygon),
      contains n (Geo2DData.parts g) = true -> is_valid p = false ->
      Geo2DData.add_part n p false g = (g, Raise (InvalidGeometryError n)))
  /\ (forall (g : Geo2DData.t Polygon LineString) (e : LineString),
      contains n (Geo2DData.edges g) = true ->
      Geo2DData.add_edge n e false g = (g, Raise (DuplicateNameError "edge" n)))
  /\ (forall (g : Geo3DData.t Part3D) (p : Part3D),
      contains n (Geo3DData.parts g) = true ->
      Geo3DData.add_part n p false g = (g, Raise (DuplicateNameError "part" n))).
Proof.
  repeat split.
  - intros g s e Hc. by rewrite add_part_1d_unfold, Hc.
  - intros g p Hc Hv. by rewrite add_part_unfold, Hv, Hc.
  - intros g p Hc Hv. by rewrite add_part_unfold, Hv.
  - intros g e Hc. by rewrite add_edge_unfold, Hc.
  - intros g p Hc. by rewrite add_part_3d_unfold, Hc.
Qed.

(** C5.  [Geo3DData.add_part] and [Geo3DData.remove_part] leave
    [build_order] as it was, whether they return or raise. *)
Theorem build_order_untouched_in_3d {Part3D : Type}
    (g : Geo3DData.t Part3D) (n : string) :
  (forall (p : Part3D) (ow : bool),
      Geo3DData.build_order (fst (Geo3DData.add_part n p ow g))
      = Geo3DData.build_order g)
  /\ (forall ign : bool,
      Geo3DData.build_order (fst (Geo3DData.remove_part n ign g))
      = Geo3DData.build_order g).
Proof.
  split.
  - intros p ow. rewrite add_part_3d_unfold.
    by destruct (contains n (Geo3DData.parts g) && negb ow).
  - intros ign. rewrite remove_part_3d_unfold.
    destruct (contains n (Geo3DData.parts g)); [done|]. by destruct ign.
Qed.

(** C6.  On an instance with a blob attached that unpickles to a bytes
    object, [write_fcstd] makes the file at [file_path], or at
    [label + '.fcstd'] when [file_path] is [None], hold exactly those
    bytes, changes no other file, and returns that path, provided
    [open] does not refuse it.  On an instance with no blob attached it
    raises and writes nothing. *)
Theorem write_fcstd_writes_unpickled_bytes {Part3D : Type} `{!Runtime}
    (g : Geo3DData.t Part3D) (file_path : option string) (fs : files) :
  (forall blob data,
      Geo3DData.serial_fcdoc g = Some blob ->
      pickle_loads blob = inr (PyBytes data) ->
      open_refused fs (default (label (Geo3DData.base g) +:+ ".fcstd") file_path) = None ->
      Geo3DData.write_fcstd file_path g fs
      = (<[default (label (Geo3DData.base g) +:+ ".fcstd") file_path := data]> fs,
         Return (default (label (Geo3DData.base g) +:+ ".fcstd") file_path)))
  /\ (Geo3DData.serial_fcdoc g = None ->
      Geo3DData.write_fcstd file_path g fs
      = (fs, Raise (AttributeError
                      "'Geo3DData' object has no attribute 'serial_fcdoc'"))).
Proof.
  split.
  - intros blob data Hb Hl Ho. unfold Geo3DData.write_fcstd. rewrite Hb, Hl.
    assert (Hp : match file_path with
                 | Some p => p
                 | None => label (Geo3DData.base g) +:+ ".fcstd"
                 end = default (label (Geo3DData.base g) +:+ ".fcstd") file_path)
      by (by destruct file_path).
    rewrite Hp. unfold bind, Geo3DData.open_wb, bind, get. rewrite Ho.
    simpl. unfold modify, ret. rewrite lookup_insert_eq. simpl.
    by rewrite insert_insert_eq.
  - intros Hb. unfold Geo3DData.write_fcstd. by rewrite Hb.
Qed.

(** C7.  Removing a name that the targeted registry does not hold
    raises NotFoundError with [ignore_if_absent=False] and returns
    normally with [ignore_if_absent=True]; either way the instance is
    left as it was.  This holds for [remove_part] of the three classes
    and for [Geo2DData.remove_edge]. *)
Theorem remove_absent_name
    {Polygon LineString Part3D : Type} `{!Shape Polygon} (n : string) :
  (forall g : Geo1DData.t,
      contains n (Geo1DData.parts g) = false ->
      Geo1DData.remove_part n false g = (g, Raise (NotFoundError "part" n))
      /\ Geo1DData.remove_part n true g = (g, Return tt))
  /\ (forall g : Geo2DData.t Polygon LineString,
      contains n (Geo2DData.parts g) = false ->
      Geo2DData.remove_part n false g = (g, Raise (NotFoundError "part" n))
      /\ Geo2DData.remove_part n true g = (g, Return tt))
  /\ (forall g : Geo2DData.t Polygon LineString,
      contains n (Geo2DData.edges g) = false ->
      Geo2DData.remove_edge n false g = (g, Raise (NotFoundError "edge" n))
      /\ Geo2DData.remove_edge n true g = (g, Return tt))
  /\ (forall g : Geo3DData.t Part3D,
      contains n (Geo3DData.parts g) = false ->
      Geo3DData.remove_part n false g = (g, Raise (NotFoundError "part" n))
      /\ Geo3DData.remove_part n true g = (g, Return tt)).
Proof.
  repeat split.
  all: first [ rewrite remove_part_1d_unfold | rewrite remove_part_unfold
             | rewrite remove_edge_unfold | rewrite remove_part_3d_unfold ].
  all: match goal with H : contains _ _ = false |- _ => by rewrite H end.
Qed.

(** C9, as amended.  On a name that [parts] does not hold and with two
    endpoints neither of which is NaN, [Geo1DData.add_part] succeeds and
    stores under the name a pair that is [==] to
    [(min(start, end), max(start, end))]; the stored floats are those
    very floats unless the endpoints are equal without being the same
    float (0.0 and -0.0); endpoints that are equal are stored in the
    order given. *)
Theorem add_part_stores_min_max
    (g : Geo1DData.t) (n : string) (s e : float) (ow : bool) :
  contains n (Geo1DData.parts g) = false ->
  is_nan s = false -> is_nan e = false ->
  exists stored,
    Geo1DData.add_part n s e ow g
    = (Geo1DData.mk (Geo1DData.base g) (<[n := stored]> (Geo1DData.parts g)),
       Return tt)
    /\ pair_eq stored (py_min s e, py_max s e) = true
    /\ (float_eq s e = false \/ s = e -> stored = (py_min s e, py_max s e))
    /\ (float_eq s e = true -> stored = (s, e)).
Proof.
  intros Hc Hs He. exists (sorted2 s e). split.
  - by rewrite add_part_1d_unfold, Hc.
  - destruct (sorted2_min_max s e Hs He) as [Heq Hsame].
    split; [done|]. split; [done|]. apply sorted2_equal_keeps_order.
Qed.

(** ** The claims on sample instances *)

Lemma drawing_reachable : Geo2DData.reachable drawing.
Proof. exists (mkData "drawing"), drawing_calls. reflexivity. Qed.

(** [add_part("a", 5.0, 2.0)] stores [(2.0, 5.0)], and a second add
    under ["a"] without [overwrite] changes nothing. *)
Example wire_holds_sorted_interval :
  Geo1DData.parts wire !! "a" = Some (two, five)
  /\ Geo1DData.add_part "a" two two false wire
     = (wire, Raise (DuplicateNameError "part" "a")).
Proof. split; reflexivity. Qed.

(** After an overwrite and one removal the name is still listed, though
    neither registry holds it. *)
Example overwritten_name_outlives_removal :
  Geo2DData.build_order (Geo2DData.run overwrite_then_remove_calls (Geo2DData.init (mkData "d")))
  = ["a"]
  /\ contains "a" (Geo2DData.parts
                     (Geo2DData.run overwrite_then_remove_calls (Geo2DData.init (mkData "d"))))
     = false.
Proof. split; reflexivity. Qed.

(** C1 fails as stated: with no overwriting add at all, ["a"] names a
    part and an edge at once, so the keys of the two registries do not
    split the names of [build_order] between them. *)
Lemma shared_name_not_partitioned :
  ~ names_partitioned (Geo2DData.run shared_name_calls (Geo2DData.init (mkData "d"))).
Proof.
  intros (_ & _ & Hdisjoint). apply (Hdisjoint "a"). split; reflexivity.
Qed.

Lemma build_order_counts_registries_witness :
  "e" ∈ Geo2DData.build_order drawing <->
  contains "e" (Geo2DData.parts drawing) = true \/
  contains "e" (Geo2DData.edges drawing) = true.
Proof.
  destruct (build_order_counts_registries (mkData "drawing") drawing_calls "e")
    as (_ & _ & H).
  apply H. reflexivity.
Defined.


(** C3 fails as stated: ["a"] is already a part and [overwrite] is
    false, yet with a self-intersecting polygon the error raised is
    InvalidGeometryError, not DuplicateNameError. *)
Lemma duplicate_add_with_invalid_polygon :
  contains "a" (Geo2DData.parts drawing) = true
  /\ Geo2DData.add_part "a" bowtie false drawing
     = (drawing, Raise (InvalidGeometryError "a"))
  /\ snd (Geo2DData.add_part "a" bowtie false drawing)
     <> Raise (DuplicateNameError "part" "a").
Proof.
  split; [reflexivity|]. split; [reflexivity|]. discriminate.
Qed.

Lemma duplicate_add_raises_and_keeps_state_witness :
  Geo1DData.add_part "a" two five false wire
  = (wire, Raise (DuplicateNameError "part" "a"))
  /\ Geo2DData.add_part "a" triangle false drawing
     = (drawing, Raise (DuplicateNameError "part" "a"))
  /\ Geo2DData.add_part "a" bowtie false drawing
     = (drawing, Raise (InvalidGeometryError "a"))
  /\ Geo2DData.add_edge "e" top false drawing
     = (drawing, Raise (DuplicateNameError "edge" "e"))
  /\ Geo3DData.add_part "p1" "cylinder" false solid
     = (solid, Raise (DuplicateNameError "part" "p1")).
Proof.
  destruct (duplicate_add_raises_and_keeps_state
              (Polygon:=ring) (LineString:=segment) (Part3D:=string) "a")
    as (H1 & H2 & H3 & _ & _).
  destruct (duplicate_add_raises_and_keeps_state
              (Polygon:=ring) (LineString:=segment) (Part3D:=string) "e")
    as (_ & _ & _ & H4 & _).
  destruct (duplicate_add_raises_and_keeps_state
              (Polygon:=ring) (LineString:=segment) (Part3D:=string) "p1")
    as (_ & _ & _ & _ & H5).
  split; [apply H1; reflexivity|].
  split; [apply H2; reflexivity|].
  split; [apply H3; reflexivity|].
  split; [apply H4; reflexivity | apply H5; reflexivity].
Defined.

(** The self-intersecting polygon is turned away; the line of zero
    length, not valid either, is stored. *)
Lemma invalid_polygon_rejected_edges_unchecked_witness :
  Geo2DData.add_part "b" bowtie true drawing
  = (drawing, Raise (InvalidGeometryError "b"))
  /\ is_valid dot = false
  /\ Geo2DData.edges (fst (Geo2DData.add_edge "f" dot false drawing)) !! "f"
     = Some dot
  /\ Geo2DData.build_order (fst (Geo2DData.add_edge "f" dot false drawing))
     = ["a"; "e"; "f"].
Proof.
  destruct (invalid_polygon_rejected_edges_unchecked drawing "b" true) as [Hp _].
  destruct (invalid_polygon_rejected_edges_unchecked drawing "f" false) as [_ He].
  split; [apply Hp; reflexivity|]. split; [reflexivity|].
  rewrite (He dot) by reflexivity. split; reflexivity.
Defined.

Lemma write_fcstd_writes_unpickled_bytes_witness :
  Geo3DData.write_fcstd None solid (∅ : files)
  = (<["solid.fcstd" := [x68; x69]]> ∅, Return "solid.fcstd")
  /\ Geo3DData.write_fcstd (Some "out.fcstd") solid (∅ : files)
     = (<["out.fcstd" := [x68; x69]]> ∅, Return "out.fcstd")
  /\ Geo3DData.write_fcstd None (Geo3DData.init (Part3D:=string) (mkData "solid")) (∅ : files)
     = (∅, Raise (AttributeError
                    "'Geo3DData' object has no attribute 'serial_fcdoc'")).
Proof.
  destruct (write_fcstd_writes_unpickled_bytes solid None ∅) as [H1 _].
  destruct (write_fcstd_writes_unpickled_bytes solid (Some "out.fcstd") ∅)
    as [H2 _].
  destruct (write_fcstd_writes_unpickled_bytes
              (Geo3DData.init (Part3D:=string) (mkData "solid")) None ∅) as [_ H3].
  split; [apply (H1 pickled_hi); reflexivity|].
  split; [apply (H2 pickled_hi); reflexivity|].
  apply H3. reflexivity.
Defined.

Lemma remove_absent_name_witness :
  Geo1DData.remove_part "z" true wire = (wire, Return tt)
  /\ Geo2DData.remove_part "e" false drawing
     = (drawing, Raise (NotFoundError "part" "e"))
  /\ Geo2DData.remove_edge "a" false drawing
     = (drawing, Raise (NotFoundError "edge" "a"))
  /\ Geo3DData.remove_part "p2" true solid = (solid, Return tt).
Proof.
  destruct (remove_absent_name
              (Polygon:=ring) (LineString:=segment) (Part3D:=string) "z")
    as (H1 & _).
  destruct (remove_absent_name
              (Polygon:=ring) (LineString:=segment) (Part3D:=string) "e")
    as (_ & H2 & _).
  destruct (remove_absent_name
              (Polygon:=ring) (LineString:=segment) (Part3D:=string) "a")
    as (_ & _ & H3 & _).
  destruct (remove_absent_name
              (Polygon:=ring) (LineString:=segment) (Part3D:=string) "p2")
    as (_ & _ & _ & H4).
  split; [apply (H1 wire); reflexivity|].
  split; [apply (H2 drawing); reflexivity|].
  split; [apply (H3 drawing); reflexivity | apply (H4 solid); reflexivity].
Defined.

(** In [redrawn], where [build_order] is [a, e, a, e]: removing the
    part ["a"] cuts the first entry, removing the edge ["e"] the
    second; the later entries of the name stay. *)
Lemma remove_drops_first_occurrence_witness :
  Geo2DData.remove_part "a" false redrawn
  = (Geo2DData.mk (Geo2DData.base redrawn) (delete "a" (Geo2DData.parts redrawn))
       (Geo2DData.edges redrawn) ["e"; "a"; "e"], Return tt)
  /\ Geo2DData.remove_edge "e" false redrawn
     = (Geo2DData.mk (Geo2DData.base redrawn) (Geo2DData.parts redrawn)
          (delete "e" (Geo2DData.edges redrawn)) ["a"; "a"; "e"], Return tt).
Proof.
  assert (Ha : "a" ∈ Geo2DData.build_order redrawn)
    by (apply count_pos; vm_compute; lia).
  assert (He : "e" ∈ Geo2DData.build_order redrawn)
    by (apply count_pos; vm_compute; lia).
  destruct (remove_drops_first_occurrence redrawn "a" false) as (Hp & _ & _).
  destruct (remove_drops_first_occurrence redrawn "e" false) as (_ & Hl & _).
  destruct (Hp eq_refl Ha) as (l1 & l2 & Hbo & Hout & ->).
  destruct (Hl eq_refl He) as (k1 & k2 & Hbo' & Hout' & ->).
  change (Geo2DData.build_order redrawn) with ["a"; "e"; "a"; "e"] in Hbo, Hbo'.
  split.
  - destruct l1 as [|x l1]; simpl in Hbo.
    + by injection Hbo as <-.
    + injection Hbo as <- _. by apply not_elem_of_cons in Hout as [? _].
  - destruct k1 as [|x [|y k1]]; simpl in Hbo'.
    + discriminate.
    + by injection Hbo' as <- <-.
    + injection Hbo' as _ <- _.
      apply not_elem_of_cons in Hout' as [_ Hout'].
      by apply not_elem_of_cons in Hout' as [? _].
Defined.

(** C9 fails as stated: with a NaN first endpoint nothing is swapped
    and [(nan, 2.0)] is stored, while [min] and [max] both give back
    the NaN. *)
Lemma nan_endpoint_not_min_max :
  Geo1DData.parts (fst (Geo1DData.add_part "a" nan two false (Geo1DData.init (mkData "wire"))))
    !! "a" = Some (nan, two)
  /\ (py_min nan two, py_max nan two) = (nan, nan)
  /\ Geo1DData.parts (fst (Geo1DData.add_part "a" nan two false (Geo1DData.init (mkData "wire"))))
       !! "a" <> Some (py_min nan two, py_max nan two)
  /\ pair_eq (nan, two) (py_min nan two, py_max nan two) = false.
Proof.
  split; [reflexivity|]. split; [reflexivity|]. split; [|reflexivity].
  discriminate.
Qed.

(** 5.0 and 2.0 are stored as (2.0, 5.0); 0.0 and -0.0 are stored as
    they come, (0.0, -0.0), and not as (-0.0, 0.0). *)
Lemma add_part_stores_min_max_witness :
  (exists stored,
      Geo1DData.add_part "b" five two false wire
      = (Geo1DData.mk (Geo1DData.base wire) (<["b" := stored]> (Geo1DData.parts wire)),
         Return tt)
      /\ stored = (two, five))
  /\ (exists stored,
      Geo1DData.add_part "z" plus_zero minus_zero false wire
      = (Geo1DData.mk (Geo1DData.base wire) (<["z" := stored]> (Geo1DData.parts wire)),
         Return tt)
      /\ pair_eq stored (py_min plus_zero minus_zero, py_max plus_zero minus_zero)
         = true
      /\ stored = (plus_zero, minus_zero)).
Proof.
  split.
  - destruct (add_part_stores_min_max wire "b" five two false
                eq_refl eq_refl eq_refl) as (stored & Hadd & _ & Hsame & _).
    exists stored. split; [exact Hadd|]. apply Hsame. left. reflexivity.
  - destruct (add_part_stores_min_max wire "z" plus_zero minus_zero false
                eq_refl eq_refl eq_refl) as (stored & Hadd & Heq & _ & Hord).
    exists stored. split; [exact Hadd|]. split; [exact Heq|].
    apply Hord. reflexivity.
Defined.

Lemma validity_checked_before_duplicate_witness :
  Geo2DData.add_part "a" bowtie false drawing
  = (drawing, Raise (InvalidGeometryError "a"))
  /\ InvalidGeometryError "a" <> DuplicateNameError "part" "a".
Proof.
  apply (validity_checked_before_duplicate drawing "a" bowtie); reflexivity.
Defined.

(** * Further properties of the three classes *)

(** ** Lists and floats *)

Lemma list_remove_snoc (x : string) (l : list string) :
  x ∉ l -> list_remove x (l ++ [x])%list = Some l.
Proof.
  induction l as [|y l IH]; intros Hout; simpl.
  - by destruct (decide (x = x)).
  - apply not_elem_of_cons in Hout as [Hne Hout].
    destruct (decide (y = x)); [congruence|]. by rewrite IH.
Qed.

Lemma list_remove_app_later (x : string) (l1 l2 k : list string) :
  x ∉ l1 ->
  list_remove x ((l1 ++ x :: l2) ++ k)%list = Some (l1 ++ l2 ++ k)%list.
Proof.
  induction l1 as [|y l1 IH]; intros Hout; simpl.
  - by destruct (decide (x = x)).
  - apply not_elem_of_cons in Hout as [Hne Hout].
    destruct (decide (y = x)); [congruence|]. by rewrite IH.
Qed.

Lemma list_remove_length (x : string) (l l' : list string) :
  list_remove x l = Some l' -> length l = S (length l').
Proof.
  revert l'. induction l as [|y l IH]; intros l' H; simpl in *; [done|].
  destruct (decide (y = x)).
  - by injection H as <-.
  - destruct (list_remove x l) as [r|]; [|done]. injection H as <-.
    simpl. by rewrite (IH r).
Qed.

Lemma list_remove_sublist (x : string) (l l' : list string) :
  list_remove x l = Some l' -> l' `sublist_of` l.
Proof.
  revert l'. induction l as [|y l IH]; intros l' H; simpl in *; [done|].
  destruct (decide (y = x)).
  - injection H as <-. by apply sublist_cons.
  - destruct (list_remove x l) as [r|]; [|done]. injection H as <-.
    apply sublist_skip. by apply IH.
Qed.

Lemma size_delete_held {V} (n : string) (d : gmap string V) :
  contains n d = true -> size d = S (size (delete n d)).
Proof.
  intros Hc. apply contains_true in Hc as [v Hv].
  rewrite <- (insert_delete_id d n v Hv) at 1.
  apply map_size_insert_None, lookup_delete_eq.
Qed.

Lemma size_insert_held {V} (n : string) (v : V) (d : gmap string V) :
  size (<[n := v]> d) = if contains n d then size d else S (size d).
Proof.
  destruct (contains n d) eqn:Hc.
  - apply map_size_insert_Some. by apply contains_true.
  - apply map_size_insert_None. by apply contains_false.
Qed.

(** Sorting two floats never leaves the greater one first. *)
Lemma sorted2_not_reversed (s e : float) :
  float_lt (snd (sorted2 s e)) (fst (sorted2 s e)) = false.
Proof.
  unfold sorted2, float_lt. destruct (SFltb e s) eqn:Hlt; simpl; [|done].
  unfold SFltb in *. rewrite (SFcompare_flip e s).
  destruct (SFcompare e s) as [[]|]; simpl; done.
Qed.

Lemma sorted2_le (s e : float) :
  is_nan s = false -> is_nan e = false ->
  float_le (fst (sorted2 s e)) (snd (sorted2 s e)) = true.
Proof.
  intros Hs He. destruct (SFcompare_defined e s He Hs) as [c Hc].
  pose proof (SFcompare_flip e s) as Hf. rewrite Hc in Hf. simpl in Hf.
  unfold sorted2, float_le, SFleb, SFltb. rewrite Hc.
  destruct c; simpl; rewrite ?Hc, ?Hf; done.
Qed.

(** ** Geo1DData *)

Section Geo1DMore.
Import Geo1DData.
Implicit Types (g : t) (n k : string) (c : call).

(** X1.  When [add_part] is let through (the name is new, or
    [overwrite=True]), what it stores under the name is the two
    endpoints given, as they came or swapped, never with the greater
    one first; when neither endpoint is NaN the first is [<=] the
    second. *)
Theorem add_part_stores_endpoints_in_order g n (s e : float) (ow : bool) :
  contains n (parts g) && negb ow = false ->
  exists lo hi,
    parts (fst (add_part n s e ow g)) !! n = Some (lo, hi)
    /\ ((lo, hi) = (s, e) \/ (lo, hi) = (e, s))
    /\ float_lt hi lo = false
    /\ (is_nan s = false -> is_nan e = false -> float_le lo hi = true).
Proof.
  intros Hc. exists (fst (sorted2 s e)), (snd (sorted2 s e)).
  rewrite add_part_1d_unfold, Hc. simpl. rewrite lookup_insert_eq.
  split; [by destruct (sorted2 s e)|]. split.
  - unfold sorted2. destruct (SFltb e s); auto.
  - split; [apply sorted2_not_reversed | apply sorted2_le].
Qed.

Lemma perform_1d_ordered c g :
  (forall n lo hi, parts g !! n = Some (lo, hi) -> float_lt hi lo = false) ->
  forall n lo hi,
    parts (fst (perform c g)) !! n = Some (lo, hi) -> float_lt hi lo = false.
Proof.
  intros Hord n lo hi. destruct c as [m s e o|m i]; simpl perform.
  - rewrite add_part_1d_unfold.
    destruct (contains m (parts g) && negb o); simpl; [apply Hord|].
    rewrite lookup_insert. destruct (decide (m = n)); [|apply Hord].
    intros [= Heq]. pose proof (sorted2_not_reversed s e) as H.
    by rewrite Heq in H.
  - rewrite remove_part_1d_unfold.
    destruct (contains m (parts g)); simpl.
    + rewrite lookup_delete. destruct (decide (m = n)); [done | apply Hord].
    + destruct i; simpl; apply Hord.
Qed.

(** X2.  In an instance built through the interface, no stored
    interval has its end smaller than its start, whatever floats were
    passed (NaN included) and whatever was overwritten or removed. *)
Theorem reachable_intervals_ordered g n (lo hi : float) :
  reachable g -> parts g !! n = Some (lo, hi) -> float_lt hi lo = false.
Proof.
  intros (d & cs & ->). revert n lo hi.
  assert (Hinit : forall n lo hi,
             parts (init d) !! n = Some (lo, hi) -> float_lt hi lo = false)
    by (intros n lo hi; simpl; by rewrite lookup_empty).
  revert Hinit. generalize (init d). induction cs as [|c cs IH]; intros g Hord.
  - exact Hord.
  - simpl. apply IH, perform_1d_ordered, Hord.
Qed.

End Geo1DMore.

(** ** Geo1DData and Geo3DData: how calls compose *)

(** X3.  Adding a part under a name the registry does not hold and
    removing it again gives back the instance exactly as it was, in
    [Geo1DData] and in [Geo3DData]. *)
Theorem add_then_remove_restores {Part3D : Type} (n : string) :
  (forall (g : Geo1DData.t) (s e : float) (ow ign : bool),
      contains n (Geo1DData.parts g) = false ->
      Geo1DData.remove_part n ign (fst (Geo1DData.add_part n s e ow g))
      = (g, Return tt))
  /\ (forall (g : Geo3DData.t Part3D) (p : Part3D) (ow ign : bool),
      contains n (Geo3DData.parts g) = false ->
      Geo3DData.remove_part n ign (fst (Geo3DData.add_part n p ow g))
      = (g, Return tt)).
Proof.
  split.
  - intros g s e ow ign Hc.
    rewrite add_part_1d_unfold, Hc. simpl. rewrite remove_part_1d_unfold. simpl.
    rewrite contains_insert. destruct (decide (n = n)); [|done].
    apply contains_false in Hc. rewrite (delete_insert_id _ _ _ Hc).
    by destruct g.
  - intros g p ow ign Hc.
    rewrite add_part_3d_unfold, Hc. simpl. rewrite remove_part_3d_unfold. simpl.
    rewrite contains_insert. destruct (decide (n = n)); [|done].
    apply contains_false in Hc. rewrite (delete_insert_id _ _ _ Hc).
    by destruct g.
Qed.

(** X4.  In [Geo1DData] and [Geo3DData] the last write wins and leaves
    no trace of the one before: an add with [overwrite=True] after any
    add under the same name leaves the instance that the second add
    alone would have left. *)
Theorem overwrite_forgets_previous_add {Part3D : Type} (n : string) :
  (forall (g : Geo1DData.t) (s1 e1 s2 e2 : float) (ow : bool),
      fst (Geo1DData.add_part n s2 e2 true (fst (Geo1DData.add_part n s1 e1 ow g)))
      = fst (Geo1DData.add_part n s2 e2 true g))
  /\ (forall (g : Geo3DData.t Part3D) (p1 p2 : Part3D) (ow : bool),
      fst (Geo3DData.add_part n p2 true (fst (Geo3DData.add_part n p1 ow g)))
      = fst (Geo3DData.add_part n p2 true g)).
Proof.
  split.
  - intros g s1 e1 s2 e2 ow. rewrite !add_part_1d_unfold, !andb_false_r.
    destruct (contains n (Geo1DData.parts g) && negb ow); simpl; [done|].
    by rewrite insert_insert_eq.
  - intros g p1 p2 ow. rewrite !add_part_3d_unfold, !andb_false_r.
    destruct (contains n (Geo3DData.parts g) && negb ow); simpl; [done|].
    by rewrite insert_insert_eq.
Qed.

(** X5.  In [Geo1DData] and [Geo3DData] a call that raises has changed
    nothing, on any instance whatever. *)
Theorem raising_call_changes_nothing {Part3D : Type} :
  (forall (c : Geo1DData.call) (g g' : Geo1DData.t) (e : exn),
      Geo1DData.perform c g = (g', Raise e) -> g' = g)
  /\ (forall (c : Geo3DData.call Part3D) (g g' : Geo3DData.t Part3D) (e : exn),
      Geo3DData.perform c g = (g', Raise e) -> g' = g).
Proof.
  split.
  - intros [n s e0 o|n i] g g' e; simpl.
    + rewrite add_part_1d_unfold.
      destruct (contains n (Geo1DData.parts g) && negb o); congruence.
    + rewrite remove_part_1d_unfold.
      destruct (contains n (Geo1DData.parts g)); [congruence|].
      destruct i; simpl; congruence.
  - intros [n p o|n i] g g' e; simpl.
    + rewrite add_part_3d_unfold.
      destruct (contains n (Geo3DData.parts g) && negb o); congruence.
    + rewrite remove_part_3d_unfold.
      destruct (contains n (Geo3DData.parts g)); [congruence|].
      destruct i; simpl; congruence.
Qed.

(** X6.  After [remove_part(n)] (or [remove_edge(n)]), whatever it
    did, the name is gone from the registry: removing it once more with
    [ignore_if_absent=False] raises NotFoundError and changes nothing.
    This holds in the three classes. *)
Theorem second_remove_not_found
    {Polygon LineString Part3D : Type} `{!Shape Polygon} (n : string) (ign : bool) :
  (forall g : Geo1DData.t,
      Geo1DData.remove_part n false (fst (Geo1DData.remove_part n ign g))
      = (fst (Geo1DData.remove_part n ign g), Raise (NotFoundError "part" n)))
  /\ (forall g : Geo2DData.t Polygon LineString,
      Geo2DData.remove_part n false (fst (Geo2DData.remove_part n ign g))
      = (fst (Geo2DData.remove_part n ign g), Raise (NotFoundError "part" n)))
  /\ (forall g : Geo2DData.t Polygon LineString,
      Geo2DData.remove_edge n false (fst (Geo2DData.remove_edge n ign g))
      = (fst (Geo2DData.remove_edge n ign g), Raise (NotFoundError "edge" n)))
  /\ (forall g : Geo3DData.t Part3D,
      Geo3DData.remove_part n false (fst (Geo3DData.remove_part n ign g))
      = (fst (Geo3DData.remove_part n ign g), Raise (NotFoundError "part" n))).
Proof.
  assert (Hgone : forall V (d : gmap string V), contains n (delete n d) = false).
  { intros V d. rewrite contains_delete. by destruct (decide (n = n)). }
  repeat split; intros g.
  - rewrite (remove_part_1d_unfold g).
    destruct (contains n (Geo1DData.parts g)) eqn:Hc; simpl.
    + by rewrite remove_part_1d_unfold; simpl; rewrite Hgone.
    + destruct ign; simpl; by rewrite remove_part_1d_unfold, Hc.
  - rewrite (remove_part_unfold g).
    destruct (contains n (Geo2DData.parts g)) eqn:Hc; simpl.
    + destruct (list_remove n (Geo2DData.build_order g)); simpl;
        by rewrite remove_part_unfold; simpl; rewrite Hgone.
    + destruct ign; simpl; by rewrite remove_part_unfold, Hc.
  - rewrite (remove_edge_unfold g).
    destruct (contains n (Geo2DData.edges g)) eqn:Hc; simpl.
    + destruct (list_remove n (Geo2DData.build_order g)); simpl;
        by rewrite remove_edge_unfold; simpl; rewrite Hgone.
    + destruct ign; simpl; by rewrite remove_edge_unfold, Hc.
  - rewrite (remove_part_3d_unfold g).
    destruct (contains n (Geo3DData.parts g)) eqn:Hc; simpl.
    + by rewrite remove_part_3d_unfold; simpl; rewrite Hgone.
    + destruct ign; simpl; by rewrite remove_part_3d_unfold, Hc.
Qed.

(** X7.  After an add that returned normally the registry holds the
    value under the name (for [Geo1DData], the sorted endpoints), and a
    further add under that name with [overwrite=False] raises
    DuplicateNameError and changes nothing, so the value stays.  This
    holds in the three classes, for [Geo2DData.add_part] when the second
    polygon is valid. *)
Theorem add_then_add_again_rejected
    {Polygon LineString Part3D : Type} `{!Shape Polygon} (n : string) (ow : bool) :
  (forall (g : Geo1DData.t) (s e s' e' : float),
      snd (Geo1DData.add_part n s e ow g) = Return tt ->
      Geo1DData.parts (fst (Geo1DData.add_part n s e ow g)) !! n
      = Some (sorted2 s e)
      /\ Geo1DData.add_part n s' e' false (fst (Geo1DData.add_part n s e ow g))
         = (fst (Geo1DData.add_part n s e ow g),
            Raise (DuplicateNameError "part" n)))
  /\ (forall (g : Geo2DData.t Polygon LineString) (p p' : Polygon),
      snd (Geo2DData.add_part n p ow g) = Return tt ->
      is_valid p' = true ->
      Geo2DData.parts (fst (Geo2DData.add_part n p ow g)) !! n = Some p
      /\ Geo2DData.add_part n p' false (fst (Geo2DData.add_part n p ow g))
         = (fst (Geo2DData.add_part n p ow g),
            Raise (DuplicateNameError "part" n)))
  /\ (forall (g : Geo2DData.t Polygon LineString) (e e' : LineString),
      snd (Geo2DData.add_edge n e ow g) = Return tt ->
      Geo2DData.edges (fst (Geo2DData.add_edge n e ow g)) !! n = Some e
      /\ Geo2DData.add_edge n e' false (fst (Geo2DData.add_edge n e ow g))
         = (fst (Geo2DData.add_edge n e ow g),
            Raise (DuplicateNameError "edge" n)))
  /\ (forall (g : Geo3DData.t Part3D) (p p' : Part3D),
      snd (Geo3DData.add_part n p ow g) = Return tt ->
      Geo3DData.parts (fst (Geo3DData.add_part n p ow g)) !! n = Some p
      /\ Geo3DData.add_part n p' false (fst (Geo3DData.add_part n p ow g))
         = (fst (Geo3DData.add_part n p ow g),
            Raise (DuplicateNameError "part" n))).
Proof.
  assert (Hin : forall V (v : V) (d : gmap string V),
             contains n (<[n := v]> d) = true).
  { intros V v d. rewrite contains_insert. by destruct (decide (n = n)). }
  split; [|split; [|split]].
  - intros g s e s' e'. rewrite (add_part_1d_unfold g).
    destruct (contains n (Geo1DData.parts g) && negb ow); simpl; [done|].
    intros _. rewrite lookup_insert_eq. split; [done|].
    rewrite add_part_1d_unfold. simpl. by rewrite Hin.
  - intros g p p'. rewrite (add_part_unfold g).
    destruct (negb (is_valid p)); [done|].
    destruct (contains n (Geo2DData.parts g) && negb ow); simpl; [done|].
    intros _ Hv. rewrite lookup_insert_eq. split; [done|].
    rewrite add_part_unfold, Hv. simpl. by rewrite Hin.
  - intros g e e'. rewrite (add_edge_unfold g).
    destruct (contains n (Geo2DData.edges g) && negb ow); simpl; [done|].
    intros _. rewrite lookup_insert_eq. split; [done|].
    rewrite add_edge_unfold. simpl. by rewrite Hin.
  - intros g p p'. rewrite (add_part_3d_unfold g).
    destruct (contains n (Geo3DData.parts g) && negb ow); simpl; [done|].
    intros _. rewrite lookup_insert_eq. split; [done|].
    rewrite add_part_3d_unfold. simpl. by rewrite Hin.
Qed.

(** ** Geo2DData *)

Section Geo2DMore.
Import Geo2DData.
Context {Polygon LineString : Type} `{!Shape Polygon}.
Implicit Types (g : t Polygon LineString) (n k : string)
               (c : call Polygon LineString).

(** X8.  On an instance built through the interface, a call that
    raises has changed nothing, and what it raises is one of the
    module's own errors about the name of the call: [list.remove]
    never fails there. *)
Theorem reachable_raising_call_changes_nothing c g g' (e : exn) :
  reachable g ->
  perform c g = (g', Raise e) ->
  g' = g
  /\ (e = InvalidGeometryError (call_name c)
      \/ e = DuplicateNameError "part" (call_name c)
      \/ e = DuplicateNameError "edge" (call_name c)
      \/ e = NotFoundError "part" (call_name c)
      \/ e = NotFoundError "edge" (call_name c)).
Proof.
  intros Hr. destruct c as [n p o|n i|n l o|n i]; simpl.
  - rewrite add_part_unfold. destruct (negb (is_valid p)).
    { intros [= <- <-]. auto. }
    destruct (contains n (parts g) && negb o); intros [= <- <-]. auto.
  - rewrite remove_part_unfold. destruct (contains n (parts g)) eqn:Hc.
    + destruct (list_remove_first _ _ (reachable_part_listed _ _ Hr Hc))
        as (l1 & l2 & _ & _ & ->). done.
    + destruct i; simpl; intros [= <- <-]. auto 6.
  - rewrite add_edge_unfold.
    destruct (contains n (edges g) && negb o); intros [= <- <-]. auto.
  - rewrite remove_edge_unfold. destruct (contains n (edges g)) eqn:Hc.
    + destruct (list_remove_first _ _ (reachable_edge_listed _ _ Hr Hc))
        as (l1 & l2 & _ & _ & ->). done.
    + destruct i; simpl; intros [= <- <-]. auto 6.
Qed.

Lemma perform_length c g (d : string -> nat) :
  (forall k, count k (build_order g)
             = held k (parts g) + held k (edges g) + d k) ->
  length (build_order (fst (perform c g))) + size (parts g) + size (edges g)
  = length (build_order g) + size (parts (fst (perform c g)))
    + size (edges (fst (perform c g))) + (if overwriting c g then 1 else 0).
Proof.
  intros Hacc. unfold overwriting.
  destruct c as [n p o|n i|n e o|n i]; simpl.
  - rewrite add_part_unfold, bool_decide_eq_true_2 by done.
    destruct (is_valid p); simpl; [|lia].
    destruct (contains n (parts g)) eqn:Hc, o; simpl; try lia;
      rewrite length_app, size_insert_held, Hc; simpl; lia.
  - rewrite remove_part_unfold. destruct (contains n (parts g)) eqn:Hc;
      [|destruct i; simpl; lia].
    assert (Hin : n ∈ build_order g).
    { apply count_pos. rewrite (Hacc n). unfold held. rewrite Hc. lia. }
    destruct (list_remove_first _ _ Hin) as (l1 & l2 & _ & _ & Hrm).
    rewrite Hrm. simpl. rewrite (list_remove_length _ _ _ Hrm).
    rewrite (size_delete_held n (parts g) Hc). lia.
  - rewrite add_edge_unfold, bool_decide_eq_true_2 by done.
    destruct (contains n (edges g)) eqn:Hc, o; simpl; try lia;
      rewrite length_app, size_insert_held, Hc; simpl; lia.
  - rewrite remove_edge_unfold. destruct (contains n (edges g)) eqn:Hc;
      [|destruct i; simpl; lia].
    assert (Hin : n ∈ build_order g).
    { apply count_pos. rewrite (Hacc n). unfold held. rewrite Hc. lia. }
    destruct (list_remove_first _ _ Hin) as (l1 & l2 & _ & _ & Hrm).
    rewrite Hrm. simpl. rewrite (list_remove_length _ _ _ Hrm).
    rewrite (size_delete_held n (edges g) Hc). lia.
Qed.

Lemma run_length cs g (d : string -> nat) :
  (forall k, count k (build_order g)
             = held k (parts g) + held k (edges g) + d k) ->
  length (build_order (run cs g)) + size (parts g) + size (edges g)
  = length (build_order g) + size (parts (run cs g)) + size (edges (run cs g))
    + overwriting_total cs g.
Proof.
  revert g d. induction cs as [|c cs IH]; intros g d Hacc; simpl; [lia|].
  pose proof (perform_length c g d Hacc) as Hstep.
  pose proof (IH (fst (perform c g))
                (fun k => d k + (if overwrites k c g then 1 else 0))) as Hrest.
  rewrite <- Nat.add_assoc.
  cut (length (build_order (run cs (fst (perform c g))))
       + size (parts (fst (perform c g))) + size (edges (fst (perform c g)))
       = length (build_order (fst (perform c g)))
         + size (parts (run cs (fst (perform c g))))
         + size (edges (run cs (fst (perform c g))))
         + overwriting_total cs (fst (perform c g))); [lia|].
  apply Hrest. intros k. rewrite (perform_count c g d Hacc k). lia.
Qed.

(** X9.  After any sequence of calls on a fresh instance,
    [build_order] has one entry for each part, one for each edge, and
    one more for each add that overwrote an entry; so it is never
    shorter than the two registries together. *)
Theorem build_order_length (d : Data) (cs : list (call Polygon LineString)) :
  length (build_order (run cs (init d)))
  = size (parts (run cs (init d))) + size (edges (run cs (init d)))
    + overwriting_total cs (init d).
Proof.
  pose proof (run_length cs (init d) (fun _ => 0) (init_count d)) as H.
  simpl in H. rewrite !map_size_empty in H. lia.
Qed.

End Geo2DMore.

Section Geo2DCompose.
Import Geo2DData.
Context {Polygon LineString : Type} `{!Shape Polygon}.
Implicit Types (g : t Polygon LineString) (n k : string)
               (c : call Polygon LineString).

(** X10.  Adding a part (or an edge) under a name that the registry
    does not hold and that [build_order] does not list, and removing it
    again, gives back the instance exactly as it was. *)
Theorem add_then_remove_unlisted_restores g n (ow ign : bool) :
  n ∉ build_order g ->
  (forall p : Polygon,
      is_valid p = true -> contains n (parts g) = false ->
      remove_part n ign (fst (add_part n p ow g)) = (g, Return tt))
  /\ (forall e : LineString,
      contains n (edges g) = false ->
      remove_edge n ign (fst (add_edge n e ow g)) = (g, Return tt)).
Proof.
  intros Hout. split.
  - intros p Hv Hc. rewrite add_part_unfold, Hv, Hc. simpl.
    rewrite remove_part_unfold. simpl.
    rewrite contains_insert. destruct (decide (n = n)); [|done].
    rewrite (list_remove_snoc _ _ Hout).
    apply contains_false in Hc. rewrite (delete_insert_id _ _ _ Hc).
    by destruct g.
  - intros e Hc. rewrite add_edge_unfold, Hc. simpl.
    rewrite remove_edge_unfold. simpl.
    rewrite contains_insert. destruct (decide (n = n)); [|done].
    rewrite (list_remove_snoc _ _ Hout).
    apply contains_false in Hc. rewrite (delete_insert_id _ _ _ Hc).
    by destruct g.
Qed.

(** X11.  When the name is already listed in [build_order] (it names
    an entry of the other registry, or the add overwrites), an add that
    is let through followed by the remove does not undo the add: the
    remove cuts the earliest entry of the name, not the one just
    appended, so the name ends up last in [build_order] and is still
    listed although the registry no longer holds it. *)
Theorem add_then_remove_listed_moves_name g n (ow ign : bool) (l1 l2 : list string) :
  build_order g = (l1 ++ n :: l2)%list -> n ∉ l1 ->
  (forall p : Polygon,
      is_valid p = true -> contains n (parts g) && negb ow = false ->
      remove_part n ign (fst (add_part n p ow g))
      = (mk (base g) (delete n (parts g)) (edges g) (l1 ++ l2 ++ [n])%list,
         Return tt))
  /\ (forall e : LineString,
      contains n (edges g) && negb ow = false ->
      remove_edge n ign (fst (add_edge n e ow g))
      = (mk (base g) (parts g) (delete n (edges g)) (l1 ++ l2 ++ [n])%list,
         Return tt)).
Proof.
  intros Hbo Hout. split.
  - intros p Hv Hc. rewrite add_part_unfold, Hv, Hc. simpl.
    rewrite remove_part_unfold. simpl.
    rewrite contains_insert. destruct (decide (n = n)); [|done].
    by rewrite Hbo, (list_remove_app_later _ _ _ _ Hout), delete_insert_eq.
  - intros e Hc. rewrite add_edge_unfold, Hc. simpl.
    rewrite remove_edge_unfold. simpl.
    rewrite contains_insert. destruct (decide (n = n)); [|done].
    by rewrite Hbo, (list_remove_app_later _ _ _ _ Hout), delete_insert_eq.
Qed.

(** X12.  On any instance, a call leaves alone everything that is not
    about its name: the base-class part, the values stored under other
    names in both registries and the number of times other names are
    listed.  A part call never changes [edges], an edge call never
    changes [parts]. *)
Theorem call_touches_its_name_only c g :
  base (fst (perform c g)) = base g
  /\ (forall k, k <> call_name c ->
        parts (fst (perform c g)) !! k = parts g !! k
        /\ edges (fst (perform c g)) !! k = edges g !! k
        /\ count k (build_order (fst (perform c g))) = count k (build_order g))
  /\ match c with
     | AddPart _ _ _ | RemovePart _ _ => edges (fst (perform c g)) = edges g
     | AddEdge _ _ _ | RemoveEdge _ _ => parts (fst (perform c g)) = parts g
     end.
Proof.
  destruct c as [n p o|n i|n e o|n i]; simpl.
  - rewrite add_part_unfold. destruct (negb (is_valid p)); [done|].
    destruct (contains n (parts g) && negb o); simpl; [done|].
    split; [done|]. split; [|done]. intros k Hk.
    rewrite lookup_insert_ne, count_snoc by done.
    destruct (decide (n = k)); [congruence|]. by rewrite Nat.add_0_r.
  - rewrite remove_part_unfold. destruct (contains n (parts g)).
    + destruct (list_remove n (build_order g)) as [l|] eqn:Hrm; simpl;
        (split; [done|]); (split; [|done]); intros k Hk;
        rewrite lookup_delete_ne by done; [|done].
      rewrite (count_list_remove k _ _ _ Hrm).
      by destruct (decide (n = k)); [congruence|].
    + by destruct i.
  - rewrite add_edge_unfold.
    destruct (contains n (edges g) && negb o); simpl; [done|].
    split; [done|]. split; [|done]. intros k Hk.
    rewrite lookup_insert_ne, count_snoc by done.
    destruct (decide (n = k)); [congruence|]. by rewrite Nat.add_0_r.
  - rewrite remove_edge_unfold. destruct (contains n (edges g)).
    + destruct (list_remove n (build_order g)) as [l|] eqn:Hrm; simpl;
        (split; [done|]); (split; [|done]); intros k Hk;
        rewrite lookup_delete_ne by done; [|done].
      rewrite (count_list_remove k _ _ _ Hrm).
      by destruct (decide (n = k)); [congruence|].
    + by destruct i.
Qed.

(** X13.  No call reorders [build_order] or inserts into it anywhere
    but at the end: after a call the list is the old one, possibly with
    one entry cut out, possibly followed by the name of the call. *)
Theorem build_order_keeps_order c g :
  build_order (fst (perform c g)) `sublist_of` (build_order g ++ [call_name c])%list.
Proof.
  destruct c as [n p o|n i|n e o|n i]; simpl.
  - rewrite add_part_unfold. destruct (negb (is_valid p));
      [by apply sublist_inserts_r|].
    destruct (contains n (parts g) && negb o); simpl; [by apply sublist_inserts_r|done].
  - rewrite remove_part_unfold. destruct (contains n (parts g)).
    + destruct (list_remove n (build_order g)) as [l|] eqn:Hrm; simpl;
        apply sublist_inserts_r; [by apply (list_remove_sublist n)|done].
    + destruct i; by apply sublist_inserts_r.
  - rewrite add_edge_unfold.
    destruct (contains n (edges g) && negb o); simpl; [by apply sublist_inserts_r|done].
  - rewrite remove_edge_unfold. destruct (contains n (edges g)).
    + destruct (list_remove n (build_order g)) as [l|] eqn:Hrm; simpl;
        apply sublist_inserts_r; [by apply (list_remove_sublist n)|done].
    + destruct i; by apply sublist_inserts_r.
Qed.

End Geo2DCompose.

(** ** Geo3DData *)

Section Geo3DMore.
Import Geo3DData.
Context {Part3D : Type} `{!Runtime}.
Implicit Types (g : t Part3D) (n : string) (c : call Part3D) (fs : files).

Lemma perform_3d_frame c g :
  base (fst (perform c g)) = base g
  /\ build_order (fst (perform c g)) = build_order g
  /\ serial_fcdoc (fst (perform c g)) = serial_fcdoc g.
Proof.
  destruct c as [n p o|n i]; simpl.
  - rewrite add_part_3d_unfold. by destruct (contains n (parts g) && negb o).
  - rewrite remove_part_3d_unfold.
    destruct (contains n (parts g)); [done|]. by destruct i.
Qed.

Lemma run_3d_frame (cs : list (call Part3D)) g :
  base (run cs g) = base g
  /\ build_order (run cs g) = build_order g
  /\ serial_fcdoc (run cs g) = serial_fcdoc g.
Proof.
  revert g. induction cs as [|c cs IH]; intros g; simpl; [done|].
  destruct (IH (fst (perform c g))) as (-> & -> & ->). apply perform_3d_frame.
Qed.

(** X14.  An instance built with [__init__], [add_part] and
    [remove_part] alone has an empty [build_order], however many parts
    it holds, and no blob attached: on it [write_fcstd] raises and
    leaves the file system as it was, whatever the path. *)
Theorem reachable_3d_cannot_be_written g (file_path : option string) fs :
  reachable g ->
  build_order g = []
  /\ write_fcstd file_path g fs
     = (fs, Raise (AttributeError
                     "'Geo3DData' object has no attribute 'serial_fcdoc'")).
Proof.
  intros (d & cs & ->).
  destruct (run_3d_frame cs (init d)) as (_ & Hbo & Hblob).
  split; [done|]. unfold write_fcstd. by rewrite Hblob.
Qed.

(** X15.  When the blob does not unpickle, or when [open] refuses the
    path, [write_fcstd] raises that very error and the file system is
    as it was: no file is created or emptied. *)
Theorem write_fcstd_fails_before_writing g (file_path : option string) fs
    (blob : list byte) (e : exn) :
  serial_fcdoc g = Some blob ->
  (pickle_loads blob = inl e ->
   write_fcstd file_path g fs = (fs, Raise e))
  /\ (forall obj,
      pickle_loads blob = inr obj ->
      open_refused fs (default (label (base g) +:+ ".fcstd") file_path) = Some e ->
      write_fcstd file_path g fs = (fs, Raise e)).
Proof.
  intros Hb. unfold write_fcstd. rewrite Hb. split.
  - by intros ->.
  - intros obj -> Ho.
    assert (Hp : match file_path with
                 | Some p => p
                 | None => label (base g) +:+ ".fcstd"
                 end = default (label (base g) +:+ ".fcstd") file_path)
      by (by destruct file_path).
    rewrite Hp. unfold bind, open_wb, bind, get. by rewrite Ho.
Qed.

(** X16.  When the blob unpickles to an object that is not bytes-like,
    [write_fcstd] raises the TypeError of [of.write], which names the
    type of the object, only after [open] has emptied the file: the
    file at the path exists and is empty, whatever it held before. *)
Theorem write_fcstd_non_bytes_empties_file g (file_path : option string) fs
    (blob : list byte) (type_name : string) :
  serial_fcdoc g = Some blob ->
  pickle_loads blob = inr (PyOther type_name) ->
  open_refused fs (default (label (base g) +:+ ".fcstd") file_path) = None ->
  write_fcstd file_path g fs
  = (<[default (label (base g) +:+ ".fcstd") file_path := []]> fs,
     Raise (TypeError ("a bytes-like object is required, not '" +:+ type_name
                       +:+ "'"))).
Proof.
  intros Hb Hl Ho. unfold write_fcstd. rewrite Hb, Hl.
  assert (Hp : match file_path with
               | Some p => p
               | None => label (base g) +:+ ".fcstd"
               end = default (label (base g) +:+ ".fcstd") file_path)
    by (by destruct file_path).
  rewrite Hp. unfold bind, open_wb, bind, get. by rewrite Ho.
Qed.

End Geo3DMore.

(** ** The further properties on sample instances *)

Lemma wire_reachable : Geo1DData.reachable wire.
Proof. exists (mkData "wire"), wire_calls. reflexivity. Qed.

Lemma assembly_reachable : Geo3DData.reachable assembly.
Proof. exists (mkData "assembly"), assembly_calls. reflexivity. Qed.

Lemma add_part_stores_endpoints_in_order_witness :
  exists lo hi,
    Geo1DData.parts (fst (Geo1DData.add_part "a" five nan true wire)) !! "a"
    = Some (lo, hi)
    /\ ((lo, hi) = (five, nan) \/ (lo, hi) = (nan, five))
    /\ float_lt hi lo = false
    /\ (is_nan five = false -> is_nan nan = false -> float_le lo hi = true).
Proof.
  apply (add_part_stores_endpoints_in_order wire "a" five nan true). reflexivity.
Defined.

Lemma reachable_intervals_ordered_witness : float_lt five two = false.
Proof.
  apply (reachable_intervals_ordered wire "a" two five wire_reachable).
  reflexivity.
Defined.

Lemma add_then_remove_restores_witness :
  Geo1DData.remove_part "b" false (fst (Geo1DData.add_part "b" five two false wire))
  = (wire, Return tt)
  /\ Geo3DData.remove_part "p3" false
       (fst (Geo3DData.add_part "p3" "cone" true solid))
     = (solid, Return tt).
Proof.
  destruct (add_then_remove_restores (Part3D:=string) "b") as [H1 _].
  destruct (add_then_remove_restores (Part3D:=string) "p3") as [_ H3].
  split; [apply H1 | apply H3]; reflexivity.
Defined.

Lemma raising_call_changes_nothing_witness :
  fst (Geo1DData.perform (Geo1DData.RemovePart "z" false) wire) = wire
  /\ fst (Geo3DData.perform (Geo3DData.AddPart "p1" "cone" false) solid) = solid.
Proof.
  destruct (raising_call_changes_nothing (Part3D:=string)) as [H1 H3].
  split.
  - apply (H1 (Geo1DData.RemovePart "z" false) wire _
              (NotFoundError "part" "z")). reflexivity.
  - apply (H3 (Geo3DData.AddPart "p1" "cone" false) solid _
              (DuplicateNameError "part" "p1")). reflexivity.
Defined.

Lemma add_then_add_again_rejected_witness :
  Geo2DData.parts (fst (Geo2DData.add_part "a" triangle true drawing)) !! "a"
  = Some triangle
  /\ Geo2DData.add_part "a" square false
       (fst (Geo2DData.add_part "a" triangle true drawing))
     = (fst (Geo2DData.add_part "a" triangle true drawing),
        Raise (DuplicateNameError "part" "a")).
Proof.
  destruct (add_then_add_again_rejected
              (Polygon:=ring) (LineString:=segment) (Part3D:=string) "a" true)
    as (_ & H2 & _).
  apply (H2 drawing triangle square); reflexivity.
Defined.

Lemma reachable_raising_call_changes_nothing_witness :
  drawing = drawing
  /\ (NotFoundError "part" "e" = InvalidGeometryError "e"
      \/ NotFoundError "part" "e" = DuplicateNameError "part" "e"
      \/ NotFoundError "part" "e" = DuplicateNameError "edge" "e"
      \/ NotFoundError "part" "e" = NotFoundError "part" "e"
      \/ NotFoundError "part" "e" = NotFoundError "edge" "e").
Proof.
  apply (reachable_raising_call_changes_nothing
           (Geo2DData.RemovePart "e" false) drawing drawing
           (NotFoundError "part" "e") drawing_reachable).
  reflexivity.
Defined.

Lemma add_then_remove_unlisted_restores_witness :
  Geo2DData.remove_part "b" false (fst (Geo2DData.add_part "b" triangle false drawing))
  = (drawing, Return tt)
  /\ Geo2DData.remove_edge "b" false (fst (Geo2DData.add_edge "b" top false drawing))
     = (drawing, Return tt).
Proof.
  assert (Hout : "b" ∉ Geo2DData.build_order drawing)
    by (apply count_zero; reflexivity).
  destruct (add_then_remove_unlisted_restores drawing "b" false false Hout)
    as [Hp He].
  split; [apply Hp | apply He]; reflexivity.
Defined.

(** ["a"] names a part, listed first.  An edge ["a"] is added and
    removed: the edges are as before, but ["a"] is now listed last. *)
Lemma add_then_remove_listed_moves_name_witness :
  Geo2DData.remove_edge "a" false (fst (Geo2DData.add_edge "a" top false drawing))
  = (Geo2DData.mk (Geo2DData.base drawing) (Geo2DData.parts drawing)
       (delete "a" (Geo2DData.edges drawing)) ["e"; "a"], Return tt).
Proof.
  destruct (add_then_remove_listed_moves_name drawing "a" false false [] ["e"]
              eq_refl (not_elem_of_nil "a")) as [_ He].
  apply (He top). reflexivity.
Defined.

Lemma call_touches_its_name_only_witness :
  Geo2DData.parts (fst (Geo2DData.perform (Geo2DData.RemoveEdge "e" false) drawing))
    !! "a" = Geo2DData.parts drawing !! "a"
  /\ Geo2DData.edges (fst (Geo2DData.perform (Geo2DData.RemoveEdge "e" false) drawing))
       !! "a" = Geo2DData.edges drawing !! "a"
  /\ count "a" (Geo2DData.build_order
                  (fst (Geo2DData.perform (Geo2DData.RemoveEdge "e" false) drawing)))
     = count "a" (Geo2DData.build_order drawing).
Proof.
  destruct (call_touches_its_name_only (Geo2DData.RemoveEdge "e" false) drawing)
    as (_ & H & _).
  apply (H "a"). discriminate.
Defined.

Lemma reachable_3d_cannot_be_written_witness :
  Geo3DData.build_order assembly = []
  /\ Geo3DData.write_fcstd (Some "out.fcstd") assembly disk
     = (disk, Raise (AttributeError
                       "'Geo3DData' object has no attribute 'serial_fcdoc'")).
Proof.
  apply (reachable_3d_cannot_be_written assembly (Some "out.fcstd") disk
           assembly_reachable).
Defined.

Lemma write_fcstd_fails_before_writing_witness :
  Geo3DData.write_fcstd None
    (Geo3DData.mk (mkData "solid") [] (∅ : gmap string string) (Some [x00])) disk
  = (disk, Raise (UnpicklingError "invalid load key"))
  /\ Geo3DData.write_fcstd (Some "") solid disk
     = (disk, Raise (OSError "No such file or directory: ''")).
Proof.
  split.
  - destruct (write_fcstd_fails_before_writing
                (Geo3DData.mk (mkData "solid") [] (∅ : gmap string string)
                   (Some [x00]))
                None disk [x00] (UnpicklingError "invalid load key") eq_refl)
      as [H _].
    apply H. reflexivity.
  - destruct (write_fcstd_fails_before_writing solid (Some "") disk pickled_hi
                (OSError "No such file or directory: ''") eq_refl) as [_ H].
    apply (H (PyBytes [x68; x69])); reflexivity.
Defined.

(** The three bytes that [solid.fcstd] held are lost. *)
Lemma write_fcstd_non_bytes_empties_file_witness :
  Geo3DData.write_fcstd None
    (Geo3DData.mk (mkData "solid") [] (∅ : gmap string string) (Some pickled_str))
    disk
  = (<["solid.fcstd" := []]> disk,
     Raise (TypeError "a bytes-like object is required, not 'str'")).
Proof.
  apply (write_fcstd_non_bytes_empties_file
           (Geo3DData.mk (mkData "solid") [] (∅ : gmap string string)
              (Some pickled_str))
           None disk pickled_str "str"); reflexivity.
Defined.
